(** * The VaaS backend hook (hook/vaas/hook.go)

    A shallow embedding of [Hook.RegisterBackend], [Hook.DeregisterBackend]
    and [Hook.watchTaskStatus], then of [Hook.HandleEvent], [NewHook] and
    the [init] and [initSentry] of cmd/executor.

    Conventions of the embedding:
    - a Go [error] is its message; [nil] is [None];
    - Go's multiple results are tuples, in the order of the signature;
    - a [*int] is an [option Z]; dereferencing [nil] is the outcome [Panic];
    - the [Client] interface is a type class over the state of the
      control plane; every method returns the state it leaves behind, and
      an object it receives by pointer is returned as the method left it;
    - every call of a [Client] method and every assignment to
      [sh.backendID] is recorded, in program order, in a list of events;
    - logging is not modelled, except that the arguments of a logging call
      are evaluated (line 126 dereferences [sh.backendID]);
    - [select] over [timer.C] and [ticker.C] takes the next wake-up of a
      schedule: the order in which the Go runtime lets the two channels
      win.  How long a fetch takes on the wall clock is not part of the
      model. *)

From Stdlib Require Import Decimal DecimalPos DecimalZ DecimalString.
From Stdlib Require Import ZArith String Ascii List Bool Lia.
Import ListNotations.
Open Scope string_scope.
Open Scope Z_scope.

(** ** Go values used by the hook *)

Definition error := string.

(** [errors.New]. *)
Definition errors_New (text : string) : error := text.

(** The verb [%d] on an [int]. *)
Definition fmt_d (n : Z) : string := NilZero.string_of_int (Z.to_int n).

(** The verb [%s] on an [error]: its message, and Go's marker for a nil
    operand. *)
Definition fmt_s (err : option error) : string :=
  match err with
  | Some msg => msg
  | None => "%!s(<nil>)"
  end.

(** [int] on linux/amd64, the platform the Makefile releases for. *)
Definition minInt : Z := - 2 ^ 63.
Definition maxInt : Z := 2 ^ 63 - 1.

Definition digit (c : ascii) : option Z :=
  let n := Z.of_N (N_of_ascii c) in
  if (48 <=? n) && (n <=? 57) then Some (n - 48) else None.

Fixpoint digits (s : string) (acc : Z) : option Z :=
  match s with
  | EmptyString => Some acc
  | String c s' =>
      match digit c with
      | Some d => digits s' (acc * 10 + d)
      | None => None
      end
  end.

(** [strconv.Atoi]: an optional sign and at least one decimal digit, the
    value within [int]; [None] stands for its [*NumError] (syntax or range),
    which the hook only compares with [nil]. *)
Definition Atoi (s : string) : option Z :=
  match s with
  | EmptyString => None
  | String c rest =>
      let neg := Ascii.eqb c "-" in
      let body := if neg || Ascii.eqb c "+" then rest else s in
      match body with
      | EmptyString => None
      | _ =>
          match digits body 0 with
          | Some n =>
              let v := if neg then - n else n in
              if (minInt <=? v) && (v <=? maxInt) then Some v else None
          | None => None
          end
      end
  end.

(** ** Constants of the package *)

Definition vaasBackendIDKey := "vaas-backend-id".
Definition vaasDirectorLabelKey := "director".
Definition vaasAsyncLabelKey := "vaas-queue".
Definition vaasInitialWeight := "VAAS_INITIAL_WEIGHT".
Definition canaryLabelKey := "canary".

(** [time.Duration] counts nanoseconds. *)
Definition time_Second : Z := 1000000000.


(** The messages of the two errors of [watchTaskStatus].  The second is
    [fmt.Errorf("Registration in VaaS failed: %s", err)] where [err] is nil,
    as it is on line 179. *)
Definition timedOut : error := "VaaS registration timed out".
Definition failed : error := "Registration in VaaS failed: " ++ fmt_s None.

(** ** Data *)

(** [mesos.Port]: the number is a [uint32]. *)
Record mesos_Port := {
  Number : N;
  Name : option string;
  Protocol : option string
}.

(** Modelled from the spec: the states of a pending task are declared with
    the client, which is not among the sources; the spec names three,
    Pending, Success and Failure. *)
Inductive TaskState := StatusPending | StatusSuccess | StatusFailure.

(** Modelled from the spec: the [Task] struct is declared with the client;
    these are the fields the hook reads and writes. *)
Record Task := {
  ResourceURI : string;
  Status : TaskState;
  Info : string
}.

(** The run-time facts of package [runenv]: the result of
    [runenv.Datacenter()] and the text of [runenv.IP()]. *)
Record RunEnv := {
  Datacenter : string * option error;
  IP : string
}.

(** Which channel a [select] received from. *)
Inductive selectCase := TimerC | TickerC.

(** How a call ends.  [Blocked] is the [select] of a schedule that has no
    wake-up left; the runtime never produces it, since the timer fires. *)
Inductive outcome :=
| Return (err : option error)
| Panic
| Blocked.

Section Hook.

(** The datacenter descriptor [DC] of the client package; the hook only
    copies it into the backend. *)
Context {DCDescriptor : Type}.

(** Modelled from the spec: the [Backend] struct is declared with the client;
    these are the fields the hook sets and reads. *)
Record Backend := {
  ID : option Z;
  Address : string;
  Director : string;
  Weight : option Z;
  DC : DCDescriptor;
  Port : Z;
  InheritTimeProfile : bool;
  Tags : list string
}.

(** The methods of [mesosutils.TaskInfo] the hook calls. *)
Class TaskInfoMethods (TaskInfo : Type) := {
  GetLabelValue : TaskInfo -> string -> string;
  GetPorts : TaskInfo -> list mesos_Port;
  GetWeight : TaskInfo -> Z * option error;
  FindEnvValue : TaskInfo -> string -> string
}.

(** The [Client] interface. *)
Class Client (C : Type) := {
  GetDC : C -> string -> C * (option DCDescriptor * option error);
  FindDirectorID : C -> string -> C * (Z * option error);
  AddBackend : C -> Backend -> bool -> C * Backend * (string * option error);
  DeleteBackend : C -> Z -> C * option error;
  TaskStatus : C -> Task -> C * Task * option error
}.

Context {TaskInfo : Type} {taskInfoMethods : TaskInfoMethods TaskInfo}.
Context {C : Type} {clientMethods : Client C}.

(** The constant [apiDirectorPath] of the client package. *)
Variable apiDirectorPath : string.

Record Hook := {
  backendID : option Z;
  client : C
}.

(** What a call does to the outside, in program order. *)
Inductive event :=
| CallGetDC (name : string)
| CallFindDirectorID (name : string)
| CallAddBackend (backend : Backend) (async : bool)
| CallDeleteBackend (id : Z)
| CallTaskStatus (task : Task)
| StoreBackendID (id : option Z).

(** [after evs r]: the run [r], made after the events [evs]. *)
Definition after {A : Type} (evs : list event) (r : A * list event)
  : A * list event :=
  (fst r, (evs ++ snd r)%list).

(** ** DeregisterBackend *)

Definition DeregisterBackend (sh : Hook) (taskInfo : TaskInfo)
  : outcome * Hook * list event :=
  match backendID sh with
  | Some id =>
      let '(c, err) := DeleteBackend (client sh) id in
      match err with
      | Some e =>
          (Return (Some e), {| backendID := backendID sh; client := c |},
           [CallDeleteBackend id])
      | None =>
          (Return None, {| backendID := None; client := c |},
           [CallDeleteBackend id; StoreBackendID None])
      end
  | None => (Return None, sh, [])
  end.

(** ** watchTaskStatus *)

(** What one pass through [case <-ticker.C] decides. *)
Inductive pollResult :=
| Continue
| Done (err : option error).

(** The body of [case <-ticker.C]. *)
Definition pollOnce (sh : Hook) (task : Task) : pollResult * Hook * Task :=
  let '(c, task', err) := TaskStatus (client sh) task in
  let sh' := {| backendID := backendID sh; client := c |} in
  match err with
  | Some _ => (Continue, sh', task')
  | None =>
      match Status task' with
      | StatusFailure =>
          (Done (Some ("Registration in VaaS failed: " ++ fmt_s err)), sh', task')
      | StatusSuccess => (Done None, sh', task')
      | StatusPending => (Continue, sh', task')
      end
  end.

Fixpoint watchTaskStatus (wakeups : list selectCase) (sh : Hook) (task : Task)
  : outcome * Hook * Task * list event :=
  match wakeups with
  | [] => (Blocked, sh, task, [])
  | TimerC :: _ =>
      (Return (Some (errors_New "VaaS registration timed out")), sh, task, [])
  | TickerC :: later =>
      let '(r, sh', task') := pollOnce sh task in
      match r with
      | Done err => (Return err, sh', task', [CallTaskStatus task])
      | Continue =>
          after [CallTaskStatus task] (watchTaskStatus later sh' task')
      end
  end.

(** ** RegisterBackend *)

(** Lines 68 to 80: the weight of the label first, then the environment
    variable over it when [strconv.Atoi] accepts its text. *)
Definition resolveInitialWeight (taskInfo : TaskInfo) : option Z :=
  let initialWeight :=
    match GetWeight taskInfo with
    | (_, Some _) => None
    | (weight, None) => Some weight
    end in
  let initialWeightEnv := FindEnvValue taskInfo vaasInitialWeight in
  match Atoi initialWeightEnv with
  | Some val => Some val
  | None => initialWeight
  end.

(** Lines 85 to 89. *)
Definition canaryTags (taskInfo : TaskInfo) : list string :=
  let isCanary := GetLabelValue taskInfo canaryLabelKey in
  if (isCanary =? "")%string then [] else [canaryLabelKey].

(** Lines 91 to 99, once [dc] is known not to be nil. *)
Definition newBackend (env : RunEnv) (taskInfo : TaskInfo)
    (dc : DCDescriptor) (directorID : Z) (port0 : mesos_Port) : Backend :=
  {| ID := None;
     Address := IP env;
     Director := apiDirectorPath ++ fmt_d directorID ++ "/";
     Weight := resolveInitialWeight taskInfo;
     DC := dc;
     Port := Z.of_N (Number port0);
     InheritTimeProfile := true;
     Tags := canaryTags taskInfo |}.

(** Lines 101 to 128: the submission of a built backend and what follows
    it.  [c] is the client as the lookups left it. *)
Definition submitBackend (wakeups : list selectCase) (sh : Hook) (c : C)
    (taskInfo : TaskInfo) (backend : Backend) : outcome * Hook * list event :=
  if (GetLabelValue taskInfo vaasAsyncLabelKey =? "true")%string then
    let '(c', backend', (taskURI, err)) := AddBackend c backend true in
    match err with
    | Some _ =>
        (Return (Some ("Could not register with VaaS director: " ++ fmt_s err)),
         {| backendID := backendID sh; client := c' |},
         [CallAddBackend backend true])
    | None =>
        let sh1 := {| backendID := ID backend'; client := c' |} in
        let task :=
          {| ResourceURI := taskURI; Status := StatusPending; Info := "" |} in
        let '(o, sh2, _, polls) := watchTaskStatus wakeups sh1 task in
        let evs :=
          CallAddBackend backend true :: StoreBackendID (ID backend') :: polls in
        match o with
        | Return (Some e) =>
            (Return (Some ("Could not register with VaaS director: "
                           ++ fmt_s (Some e))), sh2, evs)
        | Return None =>
            match backendID sh2 with
            | Some _ => (Return None, sh2, evs)
            | None => (Panic, sh2, evs)
            end
        | Panic => (Panic, sh2, evs)
        | Blocked => (Blocked, sh2, evs)
        end
    end
  else
    let '(c', backend', (_, err)) := AddBackend c backend false in
    match err with
    | Some e =>
        (Return (Some e), {| backendID := backendID sh; client := c' |},
         [CallAddBackend backend false])
    | None =>
        let sh1 := {| backendID := ID backend'; client := c' |} in
        let evs := [CallAddBackend backend false; StoreBackendID (ID backend')] in
        match backendID sh1 with
        | Some _ => (Return None, sh1, evs)
        | None => (Panic, sh1, evs)
        end
    end.

Definition RegisterBackend (env : RunEnv) (wakeups : list selectCase)
    (sh : Hook) (taskInfo : TaskInfo) : outcome * Hook * list event :=
  let director := GetLabelValue taskInfo vaasDirectorLabelKey in
  if (director =? "")%string then (Return None, sh, [])
  else
    match Datacenter env with
    | (_, Some err) => (Return (Some err), sh, [])
    | (runtimeDC, None) =>
        let '(c1, (dc, err)) := GetDC (client sh) runtimeDC in
        match err with
        | Some e =>
            (Return (Some e), {| backendID := backendID sh; client := c1 |},
             [CallGetDC runtimeDC])
        | None =>
            let '(c2, (directorID, err)) := FindDirectorID c1 director in
            let lookups := [CallGetDC runtimeDC; CallFindDirectorID director] in
            let sh2 := {| backendID := backendID sh; client := c2 |} in
            match err with
            | Some e => (Return (Some e), sh2, lookups)
            | None =>
                match GetPorts taskInfo with
                | [] =>
                    (Return (Some (errors_New "Service has no ports available")),
                     sh2, lookups)
                | port0 :: _ =>
                    match dc with
                    | None => (Panic, sh2, lookups)
                    | Some dc' =>
                        let backend :=
                          newBackend env taskInfo dc' directorID port0 in
                        after lookups
                          (submitBackend wakeups sh2 c2 taskInfo backend)
                    end
                end
            end
        end
    end.

End Hook.

Arguments Backend : clear implicits.
Arguments Client : clear implicits.
Arguments Hook : clear implicits.
Arguments event : clear implicits.

(** ** Reading a list of events *)

Section Events.

Context {DCDescriptor : Type}.

(** The identifiers [DeleteBackend] was called with. *)
Fixpoint deleteCalls (evs : list (event DCDescriptor)) : list Z :=
  match evs with
  | [] => []
  | CallDeleteBackend id :: evs' => id :: deleteCalls evs'
  | _ :: evs' => deleteCalls evs'
  end.

(** The values assigned to [sh.backendID]. *)
Fixpoint stores (evs : list (event DCDescriptor)) : list (option Z) :=
  match evs with
  | [] => []
  | StoreBackendID id :: evs' => id :: stores evs'
  | _ :: evs' => stores evs'
  end.

(** The backends [AddBackend] was called with, and the async flag. *)
Fixpoint addCalls (evs : list (event DCDescriptor))
  : list (Backend DCDescriptor * bool) :=
  match evs with
  | [] => []
  | CallAddBackend b async :: evs' => (b, async) :: addCalls evs'
  | _ :: evs' => addCalls evs'
  end.

(** The tasks [TaskStatus] was called with. *)
Fixpoint statusCalls (evs : list (event DCDescriptor)) : list Task :=
  match evs with
  | [] => []
  | CallTaskStatus t :: evs' => t :: statusCalls evs'
  | _ :: evs' => statusCalls evs'
  end.

Definition isClientCall (ev : event DCDescriptor) : bool :=
  match ev with
  | StoreBackendID _ => false
  | _ => true
  end.

(** The calls that reached the control plane. *)
Definition clientCalls (evs : list (event DCDescriptor))
  : list (event DCDescriptor) :=
  filter isClientCall evs.

End Events.

(** ** Doubles of the collaborators

    A task descriptor given by the answers of its accessors, and a client
    that answers from a script, as a mock does in a test. *)

Record StubTaskInfo := {
  labels : list (string * string);
  ports : list mesos_Port;
  weight : Z * option error;
  environment : list (string * string)
}.

Fixpoint valueOf (key : string) (kvs : list (string * string)) : string :=
  match kvs with
  | [] => ""
  | (k, v) :: kvs' => if (k =? key)%string then v else valueOf key kvs'
  end.

#[export] Instance StubTaskInfo_methods : TaskInfoMethods StubTaskInfo := {|
  GetLabelValue ti key := valueOf key (labels ti);
  GetPorts ti := ports ti;
  GetWeight ti := weight ti;
  FindEnvValue ti key := valueOf key (environment ti)
|}.

(** One scripted answer of [TaskStatus]: the status the fetch writes into
    the task, if it writes one, and the error it returns. *)
Definition statusAnswer : Type := option TaskState * option error.

Record ScriptedClient := {
  dcAnswer : option string * option error;
  directorAnswer : Z * option error;
  (** the identifier [AddBackend] writes into the backend, the locator of
      the task and the error *)
  addAnswer : option Z * (string * option error);
  deleteAnswers : list (option error);
  statusAnswers : list statusAnswer
}.

Definition scriptedDelete (c : ScriptedClient) (id : Z)
  : ScriptedClient * option error :=
  match deleteAnswers c with
  | [] => (c, Some "unexpected call of DeleteBackend")
  | a :: rest =>
      ({| dcAnswer := dcAnswer c; directorAnswer := directorAnswer c;
          addAnswer := addAnswer c; deleteAnswers := rest;
          statusAnswers := statusAnswers c |}, a)
  end.

Definition scriptedStatus (c : ScriptedClient) (task : Task)
  : ScriptedClient * Task * option error :=
  match statusAnswers c with
  | [] => (c, task, Some "unexpected call of TaskStatus")
  | (st, err) :: rest =>
      ({| dcAnswer := dcAnswer c; directorAnswer := directorAnswer c;
          addAnswer := addAnswer c; deleteAnswers := deleteAnswers c;
          statusAnswers := rest |},
       match st with
       | Some s =>
           {| ResourceURI := ResourceURI task; Status := s; Info := Info task |}
       | None => task
       end,
       err)
  end.

Definition scriptedAdd (c : ScriptedClient) (b : Backend string) (async : bool)
  : ScriptedClient * Backend string * (string * option error) :=
  (c,
   {| ID := fst (addAnswer c); Address := Address b; Director := Director b;
      Weight := Weight b; DC := DC b; Port := Port b;
      InheritTimeProfile := InheritTimeProfile b; Tags := Tags b |},
   snd (addAnswer c)).

#[export] Instance ScriptedClient_methods : Client string ScriptedClient := {|
  GetDC c name := (c, dcAnswer c);
  FindDirectorID c name := (c, directorAnswer c);
  AddBackend := scriptedAdd;
  DeleteBackend := scriptedDelete;
  TaskStatus := scriptedStatus
|}.

(** ** A worked instance

    One datacenter, one director, a task with two ports, and clients that
    differ in the answers of [DeleteBackend] and [TaskStatus]. *)

Definition directorPath : string := "/api/v0.1/director/".

Definition localEnv : RunEnv :=
  {| Datacenter := ("dc6", None); IP := "10.1.2.3" |}.

Definition httpPort : mesos_Port :=
  {| Number := 31000; Name := Some "http"; Protocol := Some "tcp" |}.

Definition adminPort : mesos_Port :=
  {| Number := 31001; Name := Some "admin"; Protocol := Some "tcp" |}.

(** A task behind the director "web", without a weight label. *)
Definition webTask : StubTaskInfo :=
  {| labels := [("director", "web")];
     ports := [httpPort; adminPort];
     weight := (0, Some "no weight label");
     environment := [] |}.

(** The same with a weight label of 20 and an override of 5. *)
Definition weightedTask : StubTaskInfo :=
  {| labels := [("director", "web")];
     ports := [httpPort; adminPort];
     weight := (20, None);
     environment := [("VAAS_INITIAL_WEIGHT", "5")] |}.

(** The same as [webTask], registered through the queue. *)
Definition queuedTask : StubTaskInfo :=
  {| labels := [("director", "web"); ("vaas-queue", "true")];
     ports := [httpPort; adminPort];
     weight := (0, Some "no weight label");
     environment := [] |}.

(** The same as [webTask], with the queue label in capitals. *)
Definition capitalTask : StubTaskInfo :=
  {| labels := [("director", "web"); ("vaas-queue", "TRUE")];
     ports := [httpPort; adminPort];
     weight := (0, Some "no weight label");
     environment := [] |}.

(** The same as [webTask] with one port only. *)
Definition singlePortTask : StubTaskInfo :=
  {| labels := [("director", "web")];
     ports := [httpPort];
     weight := (0, Some "no weight label");
     environment := [] |}.

(** A client that knows the datacenter and the director 7, gives a new
    backend the identifier 17, and answers the later calls from the two
    lists. *)
Definition vaas (deletes : list (option error)) (statuses : list statusAnswer)
  : ScriptedClient :=
  {| dcAnswer := (Some "dc6", None);
     directorAnswer := (7, None);
     addAnswer := (Some 17, ("/api/v0.1/task/42/", None));
     deleteAnswers := deletes;
     statusAnswers := statuses |}.


Definition pendingTask : Task :=
  {| ResourceURI := "/api/v0.1/task/42/"; Status := StatusPending; Info := "" |}.

Definition fetched (s : TaskState) : statusAnswer := (Some s, None).

(** ** Schedules of the wait *)



Section Polls.

Context {DCDescriptor C : Type} {clientMethods : Client DCDescriptor C}.


End Polls.

(** ** HandleEvent and NewHook *)

Module hook.

(** Modelled from the spec: the kinds of lifecycle event are declared in
    package [hook], which is not among the sources; the two that
    [HandleEvent] names, and any other kind. *)
Inductive EventType :=
| AfterTaskHealthyEvent
| BeforeTerminateEvent
| OtherEvent (name : string).

(** Modelled from the spec: [hook.Event], with the two fields
    [HandleEvent] reads. *)
Record Event (T : Type) := {
  Type' : EventType;
  TaskInfo : T
}.

Arguments Type' {T} _.
Arguments TaskInfo {T} _.

End hook.

Section Dispatch.

Context {DCDescriptor TaskInfo C : Type}.
Context {taskInfoMethods : TaskInfoMethods TaskInfo}.
Context {clientMethods : Client DCDescriptor C}.

Variable apiDirectorPath : string.

(** Lines 190 to 200. *)
Definition HandleEvent (env : RunEnv) (wakeups : list selectCase)
    (sh : Hook C) (ev : hook.Event TaskInfo)
  : outcome * Hook C * list (event DCDescriptor) :=
  match hook.Type' ev with
  | hook.AfterTaskHealthyEvent =>
      RegisterBackend apiDirectorPath env wakeups sh (hook.TaskInfo ev)
  | hook.BeforeTerminateEvent => DeregisterBackend sh (hook.TaskInfo ev)
  | hook.OtherEvent _ => (Return None, sh, [])
  end.

(** Lines 203 to 211.  [NewClient] is the constructor of the client
    package. *)
Definition NewHook (NewClient : string -> string -> string -> C)
    (apiHost apiUsername apiKey : string) : Hook C * option error :=
  ({| backendID := None; client := NewClient apiHost apiUsername apiKey |},
   None).

(** Events handed to one hook one after the other, each with the schedule
    of the wait it may start.  The executor that hands them over is not
    among the sources: the sequence stands for its successive calls of
    [HandleEvent] on the same hook, whatever it does with the results.  A
    call that does not return ends the sequence. *)
Fixpoint handleEvents (env : RunEnv) (sh : Hook C)
    (evs : list (hook.Event TaskInfo * list selectCase))
  : list outcome * Hook C * list (event DCDescriptor) :=
  match evs with
  | [] => ([], sh, [])
  | (ev, wakeups) :: later =>
      let '(o, sh1, calls) := HandleEvent env wakeups sh ev in
      match o with
      | Return _ =>
          let '(os, sh2, calls') := handleEvents env sh1 later in
          (o :: os, sh2, (calls ++ calls')%list)
      | _ => ([o], sh1, calls)
      end
  end.

End Dispatch.

(** ** Fetches in a row *)

Section Fetches.

Context {DCDescriptor C : Type} {clientMethods : Client DCDescriptor C}.

(** The tasks that [n] calls of [TaskStatus] in a row are made with, each
    call receiving the task as the call before left it. *)
Fixpoint fetchedTasks (n : nat) (c : C) (task : Task) : list Task :=
  match n with
  | O => []
  | S n' =>
      let '(c', task', _) := TaskStatus c task in
      task :: fetchedTasks n' c' task'
  end.

End Fetches.

(** ** Reading a sequence of calls *)

Section Sequences.

Context {DCDescriptor C : Type} {clientMethods : Client DCDescriptor C}.

(** [n] calls of [DeleteBackend] in a row that all return an error: the
    client they leave and their errors; [None] when one of them returns
    nil. *)
Fixpoint refusals (n : nat) (c : C) (id : Z) : option (C * list error) :=
  match n with
  | O => Some (c, [])
  | S n' =>
      match DeleteBackend c id with
      | (c', Some e) =>
          match refusals n' c' id with
          | Some (c'', es) => Some (c'', e :: es)
          | None => None
          end
      | (_, None) => None
      end
  end.

(** Whether every [DeleteBackend] of a list of events is called with the
    identifier that [sh.backendID] holds at that point, [held] being what
    it holds at the start. *)
Fixpoint deletesHeld (held : option Z) (evs : list (event DCDescriptor))
  : bool :=
  match evs with
  | [] => true
  | CallDeleteBackend id :: evs' =>
      match held with
      | Some h => (h =? id) && deletesHeld held evs'
      | None => false
      end
  | StoreBackendID v :: evs' => deletesHeld v evs'
  | _ :: evs' => deletesHeld held evs'
  end.

End Sequences.

Definition isOtherEvent (t : hook.EventType) : bool :=
  match t with
  | hook.OtherEvent _ => true
  | _ => false
  end.

Definition isTerminate (t : hook.EventType) : bool :=
  match t with
  | hook.BeforeTerminateEvent => true
  | _ => false
  end.

(** ** The entry point: init and initSentry of cmd/executor

    The configuration, the run environment and the two libraries behind
    Sentry are parameters: [SentryDSN] and [Debug] read the two fields of
    [executor.Config] that are used; [Environment] is the result of
    [runenv.Environment()] and [LocalEnv] the constant it is compared with;
    [raven_New] and [NewWithClientSentryHook] tell whether the library
    call of that name fails; [Process] is what [envconfig.Process] loads
    and returns. *)

(** [logrus.Level]. *)
Inductive Level :=
| PanicLevel | FatalLevel | ErrorLevel | WarnLevel | InfoLevel | DebugLevel.

(** The raven client, by what [initSentry] sets on it. *)
Record RavenClient := {
  ClientDSN : string;
  ClientRelease : string;
  ClientEnvironment : string
}.

(** The hook handed to [log.AddHook], by what [initSentry] sets on it. *)
Record SentryHook := {
  HookClient : RavenClient;
  HookLevels : list Level;
  Timeout : Z
}.

(** How [init] ends: in [log.Fatal], or with the logger set up. *)
Inductive started :=
| Fatal (message : string) (err : error)
| Ready (level : Level) (added : option SentryHook).

Section Main.

Context {Config : Type}.
Variable SentryDSN : Config -> string.
Variable Debug : Config -> bool.
Variable Version : string.
Variable Environment : string * option error.
Variable LocalEnv : string.
Variable raven_New : string -> option error.
Variable NewWithClientSentryHook : RavenClient -> list Level -> option error.
Variable Process : Config * option error.

(** [initSentry]: the error returned and the hook added to the logger. *)
Definition initSentry (config : Config) : option error * option SentryHook :=
  if (String.length (SentryDSN config) =? 0)%nat then (None, None)
  else
    match Environment with
    | (_, Some err) =>
        (Some ("Unable to determine runtime environment: " ++ fmt_s (Some err)),
         None)
    | (environment, None) =>
        if (environment =? LocalEnv)%string then (None, None)
        else
          match raven_New (SentryDSN config) with
          | Some err =>
              (Some ("Unable to setup raven client: " ++ fmt_s (Some err)),
               None)
          | None =>
              let client :=
                {| ClientDSN := SentryDSN config;
                   ClientRelease := Version;
                   ClientEnvironment := environment |} in
              let levels := [PanicLevel; FatalLevel; ErrorLevel] in
              match NewWithClientSentryHook client levels with
              | Some err =>
                  (Some ("Unable to setup sentry hook for logger: "
                         ++ fmt_s (Some err)), None)
              | None =>
                  (None,
                   Some {| HookClient := client; HookLevels := levels;
                           Timeout := time_Second |})
              end
          end
    end.

(** [init]. *)
Definition init : started :=
  match Process with
  | (_, Some err) => Fatal "Failed to load executor configuration" err
  | (config, None) =>
      match initSentry config with
      | (Some err, _) => Fatal "Failed to initialize Sentry" err
      | (None, added) =>
          Ready (if Debug config then DebugLevel else InfoLevel) added
      end
  end.

End Main.

(** ** More of the worked instance *)

(** A task that is not meant for VaaS: no director label. *)
Definition plainTask : StubTaskInfo :=
  {| labels := [("canary", "yes")];
     ports := [httpPort];
     weight := (0, Some "no weight label");
     environment := [] |}.

(** A task behind the director "web" that advertises no port. *)
Definition portlessTask : StubTaskInfo :=
  {| labels := [("director", "web")];
     ports := [];
     weight := (0, Some "no weight label");
     environment := [] |}.

(** A task whose canary label says "false". *)
Definition canaryTask : StubTaskInfo :=
  {| labels := [("director", "web"); ("canary", "false")];
     ports := [httpPort];
     weight := (20, None);
     environment := [("VAAS_INITIAL_WEIGHT", "-3")] |}.

(** Clients that fail a lookup, or return nil where a value is due. *)
Definition withoutDC (answer : option string * option error) : ScriptedClient :=
  {| dcAnswer := answer;
     directorAnswer := (7, None);
     addAnswer := (Some 17, ("/api/v0.1/task/42/", None));
     deleteAnswers := [];
     statusAnswers := [] |}.

Definition withoutDirector : ScriptedClient :=
  {| dcAnswer := (Some "dc6", None);
     directorAnswer := (0, Some "director not found");
     addAnswer := (Some 17, ("/api/v0.1/task/42/", None));
     deleteAnswers := [];
     statusAnswers := [] |}.

(** A client whose [AddBackend] succeeds without giving an identifier. *)
Definition anonymous (statuses : list statusAnswer) : ScriptedClient :=
  {| dcAnswer := (Some "dc6", None);
     directorAnswer := (7, None);
     addAnswer := (None, ("/api/v0.1/task/42/", None));
     deleteAnswers := [];
     statusAnswers := statuses |}.

(** A client whose queue refuses the submission. *)
Definition busy : ScriptedClient :=
  {| dcAnswer := (Some "dc6", None);
     directorAnswer := (7, None);
     addAnswer := (None, ("", Some "503 Service Unavailable"));
     deleteAnswers := [];
     statusAnswers := [fetched StatusSuccess] |}.

(** A control plane that numbers the backends it creates, from the number
    it holds, and accepts every deletion. *)
Record Numbering := {
  nextID : Z
}.

#[export] Instance Numbering_methods : Client string Numbering := {|
  GetDC c name := (c, (Some name, None));
  FindDirectorID c name := (c, (7, None));
  AddBackend c b async :=
    ({| nextID := nextID c + 1 |},
     {| ID := Some (nextID c); Address := Address b; Director := Director b;
        Weight := Weight b; DC := DC b; Port := Port b;
        InheritTimeProfile := InheritTimeProfile b; Tags := Tags b |},
     ("/api/v0.1/task/1/", None));
  DeleteBackend c id := (c, None);
  TaskStatus c task :=
    (c, {| ResourceURI := ResourceURI task; Status := StatusSuccess;
           Info := Info task |}, None)
|}.

Definition healthy (taskInfo : StubTaskInfo) : hook.Event StubTaskInfo :=
  {| hook.Type' := hook.AfterTaskHealthyEvent; hook.TaskInfo := taskInfo |}.

Definition terminating (taskInfo : StubTaskInfo) : hook.Event StubTaskInfo :=
  {| hook.Type' := hook.BeforeTerminateEvent; hook.TaskInfo := taskInfo |}.

Definition killed (taskInfo : StubTaskInfo) : hook.Event StubTaskInfo :=
  {| hook.Type' := hook.OtherEvent "task killed"; hook.TaskInfo := taskInfo |}.

(** * Properties *)

(** ** Reading integers *)

Lemma digits_nonneg s : forall acc v,
  0 <= acc -> digits s acc = Some v -> 0 <= v.
Proof.
  induction s as [|c s IH]; intros acc v Hacc; cbn [digits].
  - now intros [= <-].
  - unfold digit.
    destruct ((48 <=? Z.of_N (N_of_ascii c)) && (Z.of_N (N_of_ascii c) <=? 57))
      eqn:Hdigit; [|discriminate].
    apply andb_prop in Hdigit as [Hlo _]. apply Z.leb_le in Hlo.
    apply IH. lia.
Qed.

(** What [Atoi] accepts is an [int], and negative only under a minus sign. *)
Lemma Atoi_int s v :
  Atoi s = Some v ->
  minInt <= v <= maxInt
  /\ (v < 0 -> exists rest, s = String "-" rest).
Proof.
  unfold Atoi. destruct s as [|c rest]; [discriminate|].
  destruct (if (c =? "-")%char || (c =? "+")%char then rest else String c rest)
    as [|c' body] eqn:Hbody; [discriminate|].
  destruct (digits (String c' body) 0) as [n|] eqn:Hdigits; [|discriminate].
  destruct ((minInt <=? (if (c =? "-")%char then - n else n))
            && ((if (c =? "-")%char then - n else n) <=? maxInt))
    eqn:Hrange; [|discriminate].
  intros [= <-].
  apply andb_prop in Hrange as [Hlo Hhi].
  apply Z.leb_le in Hlo, Hhi.
  split; [lia|].
  pose proof (digits_nonneg _ _ _ (Z.le_refl 0) Hdigits) as Hn.
  destruct (c =? "-")%char eqn:Hminus.
  - apply Ascii.eqb_eq in Hminus. subst c. now exists rest.
  - lia.
Qed.

Example Atoi_accepts :
  Atoi "5" = Some 5 /\ Atoi "-12" = Some (-12) /\ Atoi "+007" = Some 7
  /\ Atoi "9223372036854775807" = Some maxInt.
Proof. repeat split. Qed.

Example Atoi_rejects :
  Atoi "" = None /\ Atoi "-" = None /\ Atoi "1.5" = None /\ Atoi " 5" = None
  /\ Atoi "0x10" = None /\ Atoi "9223372036854775808" = None.
Proof. repeat split. Qed.

Ltac read_digit :=
  cbn [digits]; unfold digit; cbn [N_of_ascii];
  match goal with
  | |- context [Z.of_N ?n] =>
      let v := eval cbv in (Z.of_N n) in change (Z.of_N n) with v
  end;
  cbn [Z.leb Z.compare Pos.compare Pos.compare_cont andb].

Lemma digits_of_uint_acc d : forall acc : positive,
  digits (NilEmpty.string_of_uint d) (Z.pos acc)
  = Some (Z.pos (Pos.of_uint_acc d acc)).
Proof.
  induction d; intros acc; cbn [NilEmpty.string_of_uint Pos.of_uint_acc];
    [reflexivity|..]; read_digit; rewrite <- IHd; f_equal; lia.
Qed.

Lemma digits_of_uint d :
  digits (NilEmpty.string_of_uint d) 0 = Some (Z.of_N (Pos.of_uint d)).
Proof.
  induction d; cbn [NilEmpty.string_of_uint Pos.of_uint];
    [reflexivity|read_digit; exact IHd|..];
    read_digit; apply digits_of_uint_acc.
Qed.

Lemma Atoi_unsigned d s (neg : bool) :
  d <> Nil ->
  s = NilEmpty.string_of_uint d ->
  let v := if neg then - Z.of_N (Pos.of_uint d) else Z.of_N (Pos.of_uint d) in
  minInt <= v <= maxInt ->
  Atoi (if neg then String "-" s else s) = Some v.
Proof.
  intros Hnil -> v Hint.
  pose proof (digits_of_uint d) as Hdigits.
  assert (Hrange : (minInt <=? v) && (v <=? maxInt) = true)
    by (apply andb_true_intro; split; apply Z.leb_le; lia).
  destruct neg, d; try easy; cbn [NilEmpty.string_of_uint] in *;
    unfold Atoi; cbn [Ascii.eqb Bool.eqb orb];
    rewrite Hdigits; fold v; now rewrite Hrange.
Qed.

(** [Atoi] reads back what [%d] prints of an [int]. *)
Lemma Atoi_fmt_d n : minInt <= n <= maxInt -> Atoi (fmt_d n) = Some n.
Proof.
  intros Hint. unfold fmt_d.
  destruct n as [|p|p]; [reflexivity|..]; cbn [Z.to_int NilZero.string_of_int].
  - pose proof (Unsigned.to_uint_nonnil p) as Hnil.
    replace (NilZero.string_of_uint (Pos.to_uint p))
      with (NilEmpty.string_of_uint (Pos.to_uint p))
      by (now destruct (Pos.to_uint p)).
    rewrite (Atoi_unsigned (Pos.to_uint p) _ false Hnil eq_refl);
      rewrite Unsigned.of_to; [reflexivity|exact Hint].
  - pose proof (Unsigned.to_uint_nonnil p) as Hnil.
    replace (NilZero.string_of_uint (Pos.to_uint p))
      with (NilEmpty.string_of_uint (Pos.to_uint p))
      by (now destruct (Pos.to_uint p)).
    rewrite (Atoi_unsigned (Pos.to_uint p) _ true Hnil eq_refl);
      rewrite Unsigned.of_to; [reflexivity|exact Hint].
Qed.

(** ** Deregistration *)

Section Deregistration.

Context {DCDescriptor TaskInfo C : Type} {clientMethods : Client DCDescriptor C}.

Implicit Types (sh : Hook C) (taskInfo : TaskInfo).

Lemma DeregisterBackend_unset sh taskInfo :
  backendID sh = None ->
  DeregisterBackend sh taskInfo = (Return None, sh, []).
Proof.
  intros Hnone. unfold DeregisterBackend. now rewrite Hnone.
Qed.

Lemma DeregisterBackend_deleted sh taskInfo id c :
  backendID sh = Some id ->
  DeleteBackend (client sh) id = (c, None) ->
  DeregisterBackend sh taskInfo
  = (Return None, {| backendID := None; client := c |},
     [CallDeleteBackend id; StoreBackendID None]).
Proof.
  intros Hid Hdel. unfold DeregisterBackend. now rewrite Hid, Hdel.
Qed.

Lemma DeregisterBackend_refused sh taskInfo id c e :
  backendID sh = Some id ->
  DeleteBackend (client sh) id = (c, Some e) ->
  DeregisterBackend sh taskInfo
  = (Return (Some e), {| backendID := Some id; client := c |},
     [CallDeleteBackend id]).
Proof.
  intros Hid Hdel. unfold DeregisterBackend. now rewrite Hid, Hdel.
Qed.

(** C5.  Deregistration is idempotent.  When the hook holds an identifier
    and the delete call of the first [DeregisterBackend] succeeds, two calls
    in succession both return nil, the first one clears [backendID], and the
    two together call [DeleteBackend] once, with that identifier: the second
    call reaches the control plane not at all.  When the hook holds no
    identifier, [DeregisterBackend] returns nil, leaves the hook as it is
    and calls nothing. *)
Theorem DeregisterBackend_idempotent sh taskInfo1 taskInfo2 :
  (forall id c,
      backendID sh = Some id ->
      DeleteBackend (client sh) id = (c, None) ->
      let '(o1, sh1, evs1) := DeregisterBackend sh taskInfo1 in
      let '(o2, sh2, evs2) := DeregisterBackend sh1 taskInfo2 in
      o1 = Return None /\ o2 = Return None
      /\ backendID sh1 = None /\ sh2 = sh1
      /\ deleteCalls (evs1 ++ evs2) = [id]
      /\ clientCalls evs2 = [])
  /\ (backendID sh = None ->
      DeregisterBackend sh taskInfo1 = (Return None, sh, [])
      /\ clientCalls (snd (DeregisterBackend sh taskInfo1)) = []).
Proof.
  split.
  - intros id c Hid Hdel.
    rewrite (DeregisterBackend_deleted sh taskInfo1 id c Hid Hdel).
    rewrite DeregisterBackend_unset by reflexivity.
    repeat split; reflexivity.
  - intros Hnone. rewrite (DeregisterBackend_unset sh taskInfo1 Hnone).
    split; reflexivity.
Qed.

(** C6.  A failed delete leaves the hook as it was.  When the hook holds an
    identifier and [DeleteBackend] returns an error, [DeregisterBackend]
    returns that very error, [backendID] still holds the identifier, and
    the next [DeregisterBackend] calls [DeleteBackend] with it again. *)
Theorem DeregisterBackend_failure_keeps_state sh taskInfo taskInfo' id c e :
  backendID sh = Some id ->
  DeleteBackend (client sh) id = (c, Some e) ->
  let '(o, sh', evs) := DeregisterBackend sh taskInfo in
  o = Return (Some e)
  /\ backendID sh' = backendID sh
  /\ client sh' = c
  /\ stores evs = []
  /\ deleteCalls (snd (DeregisterBackend sh' taskInfo')) = [id].
Proof.
  intros Hid Hdel.
  rewrite (DeregisterBackend_refused sh taskInfo id c e Hid Hdel).
  repeat split; try easy.
  unfold DeregisterBackend; cbn [backendID client].
  destruct (DeleteBackend c id) as [c' [e'|]]; reflexivity.
Qed.

(** C8.  The task descriptor plays no part in deregistration: with the same
    hook, two calls on any two descriptors return the same result, make the
    same calls and leave the same hook. *)
Theorem DeregisterBackend_ignores_taskInfo sh taskInfo1 taskInfo2 :
  DeregisterBackend sh taskInfo1 = DeregisterBackend sh taskInfo2.
Proof.
  unfold DeregisterBackend.
  destruct (backendID sh) as [id|]; [|reflexivity].
  destruct (DeleteBackend (client sh) id) as [c [e|]]; reflexivity.
Qed.

End Deregistration.

(** ** The status poller *)

Section Poller.

Context {DCDescriptor C : Type} {clientMethods : Client DCDescriptor C}.

Implicit Types (sh : Hook C) (task : Task) (wakeups : list selectCase).



Lemma pollOnce_backendID sh task :
  backendID (snd (fst (pollOnce sh task))) = backendID sh.
Proof.
  unfold pollOnce.
  destruct (TaskStatus (client sh) task) as [[c task'] [e|]]; [reflexivity|].
  now destruct (Status task').
Qed.

Lemma watchTaskStatus_tick wakeups sh task :
  watchTaskStatus (TickerC :: wakeups) sh task
  = match pollOnce sh task with
    | (Done err, sh', task') => (Return err, sh', task', [CallTaskStatus task])
    | (Continue, sh', task') =>
        after [CallTaskStatus task] (watchTaskStatus wakeups sh' task')
    end.
Proof.
  cbn [watchTaskStatus].
  destruct (pollOnce sh task) as [[[|err] sh'] task']; reflexivity.
Qed.






(** The wait leaves [sh.backendID] alone. *)
Lemma watchTaskStatus_backendID wakeups : forall sh task,
  backendID (snd (fst (fst (watchTaskStatus wakeups sh task)))) = backendID sh.
Proof.
  induction wakeups as [|w later IH]; intros sh task; [reflexivity|].
  destruct w; [reflexivity|].
  rewrite watchTaskStatus_tick.
  pose proof (pollOnce_backendID sh task) as Hpoll.
  destruct (pollOnce sh task) as [[[|err] sh1] task1]; cbn [fst snd] in Hpoll.
  - unfold after. cbn [fst snd]. now rewrite IH.
  - exact Hpoll.
Qed.

(** The two errors of the wait. *)
Lemma watchTaskStatus_errors wakeups : forall sh task e,
  fst (fst (fst (watchTaskStatus wakeups sh task))) = Return (Some e) ->
  e = timedOut \/ e = failed.
Proof.
  induction wakeups as [|w later IH]; intros sh task e; [discriminate|].
  destruct w.
  - cbn. intros [= <-]. now left.
  - rewrite watchTaskStatus_tick. unfold pollOnce.
    destruct (TaskStatus (client sh) task) as [[c task'] [e'|]].
    + unfold after. cbn [fst]. apply IH.
    + destruct (Status task'); unfold after; cbn [fst].
      * apply IH.
      * discriminate.
      * intros [= <-]. now right.
Qed.




End Poller.

(** ** Registration *)

Section Registration.

Context {DCDescriptor TaskInfo C : Type}.
Context {taskInfoMethods : TaskInfoMethods TaskInfo}.
Context {clientMethods : Client DCDescriptor C}.

Variable apiDirectorPath : string.
Variable env : RunEnv.
Variable wakeups : list selectCase.
Variable sh : Hook C.
Variable taskInfo : TaskInfo.

(** A registration that gets as far as the submission: the director label
    is set, the lookups of lines 45 to 60 succeed and the task has a port. *)
Variables (runtimeDC : string) (dc : DCDescriptor) (c1 c2 : C) (directorID : Z).
Variables (port0 : mesos_Port) (others : list mesos_Port).

Hypothesis director_set : GetLabelValue taskInfo vaasDirectorLabelKey <> "".
Hypothesis datacenter_known : Datacenter env = (runtimeDC, None).
Hypothesis dc_found : GetDC (client sh) runtimeDC = (c1, (Some dc, None)).
Hypothesis director_found :
  FindDirectorID c1 (GetLabelValue taskInfo vaasDirectorLabelKey)
  = (c2, (directorID, None)).
Hypothesis ports_advertised : GetPorts taskInfo = port0 :: others.

Local Abbreviation director := (GetLabelValue taskInfo vaasDirectorLabelKey).
Local Abbreviation lookups := [CallGetDC runtimeDC; CallFindDirectorID director].
Local Abbreviation backend :=
  (newBackend apiDirectorPath env taskInfo dc directorID port0).
Local Abbreviation sh2 := {| backendID := backendID sh; client := c2 |}.
Local Abbreviation asyncLabel := (GetLabelValue taskInfo vaasAsyncLabelKey).

Lemma RegisterBackend_submits :
  RegisterBackend apiDirectorPath env wakeups sh taskInfo
  = after lookups (submitBackend wakeups sh2 c2 taskInfo backend).
Proof.
  unfold RegisterBackend.
  apply String.eqb_neq in director_set. rewrite director_set.
  rewrite datacenter_known, dc_found, director_found, ports_advertised.
  reflexivity.
Qed.

Lemma submitBackend_sync (sh' : Hook C) c b :
  asyncLabel <> "true" ->
  submitBackend wakeups sh' c taskInfo b
  = let '(c', b', (_, err)) := AddBackend c b false in
    match err with
    | Some e =>
        (Return (Some e), {| backendID := backendID sh'; client := c' |},
         [CallAddBackend b false])
    | None =>
        (match ID b' with Some _ => Return None | None => Panic end,
         {| backendID := ID b'; client := c' |},
         [CallAddBackend b false; StoreBackendID (ID b')])
    end.
Proof.
  intros Hsync. unfold submitBackend.
  apply String.eqb_neq in Hsync. rewrite Hsync.
  destruct (AddBackend c b false) as [[c' b'] [uri [e|]]]; [reflexivity|].
  cbn [backendID]. now destruct (ID b').
Qed.

(** The submission calls [AddBackend] once, first of all, with the async
    flag the label asks for. *)
Lemma submitBackend_addCalls (sh' : Hook C) c b :
  exists rest,
    snd (submitBackend wakeups sh' c taskInfo b)
    = CallAddBackend b (asyncLabel =? "true")%string :: rest
    /\ addCalls rest = []
    /\ ((asyncLabel =? "true")%string = false -> statusCalls rest = []).
Proof.
  unfold submitBackend.
  destruct (asyncLabel =? "true")%string.
  - destruct (AddBackend c b true) as [[c' b'] [uri [e|]]].
    + now exists [].
    + destruct (watchTaskStatus _ _ _) as [[[o sh3] task'] polls] eqn:Hwatch.
      exists (StoreBackendID (ID b') :: polls).
      assert (Hadd : addCalls polls = []).
      { clear -Hwatch. revert Hwatch.
        generalize {| backendID := ID b'; client := c' |}.
        generalize {| ResourceURI := uri; Status := StatusPending; Info := "" |}.
        revert o sh3 task' polls.
        induction wakeups as [|w later IH]; intros o sh3 task' polls t h.
        - now intros [= <- <- <- <-].
        - destruct w; [now intros [= <- <- <- <-]|].
          rewrite watchTaskStatus_tick.
          destruct (pollOnce h t) as [[[|err] h1] t1].
          + destruct (watchTaskStatus later h1 t1) as [[[o' h'] t'] evs] eqn:Hl.
            unfold after. cbn [fst snd app]. intros [= <- <- <- <-].
            cbn [addCalls]. exact (IH _ _ _ _ _ _ Hl).
          + now intros [= <- <- <- <-]. }
      destruct o as [[e|]| |]; [| destruct (backendID sh3) | |];
        cbn [snd addCalls]; repeat split; try exact Hadd; discriminate.
  - destruct (AddBackend c b false) as [[c' b'] [uri [e|]]].
    + now exists [].
    + exists [StoreBackendID (ID b')].
      cbn [backendID]. now destruct (ID b').
Qed.

Lemma RegisterBackend_addCalls :
  addCalls (snd (RegisterBackend apiDirectorPath env wakeups sh taskInfo))
  = [(backend, (asyncLabel =? "true")%string)].
Proof.
  rewrite RegisterBackend_submits. unfold after. cbn [snd app addCalls].
  destruct (submitBackend_addCalls sh2 c2 backend) as (rest & -> & Hrest & _).
  cbn [addCalls]. now rewrite Hrest.
Qed.

(** The polls of the wait are its only events. *)
Lemma watchTaskStatus_stores ws : forall (h : Hook C) t,
  stores (snd (watchTaskStatus ws h t)) = [].
Proof.
  induction ws as [|w later IH]; intros h t; [reflexivity|].
  destruct w; [reflexivity|].
  rewrite watchTaskStatus_tick.
  destruct (pollOnce h t) as [[[|err] h1] t1]; [|reflexivity].
  unfold after. cbn [snd app stores]. apply IH.
Qed.

(** A submission that succeeds and leaves [backend.ID] nil: line 126
    dereferences the nil [sh.backendID]. *)
Lemma RegisterBackend_sync_nil_identifier c3 backend' uri :
  asyncLabel <> "true" ->
  AddBackend c2 backend false = (c3, backend', (uri, None)) ->
  ID backend' = None ->
  RegisterBackend apiDirectorPath env wakeups sh taskInfo
  = (Panic, {| backendID := None; client := c3 |},
     (lookups ++ [CallAddBackend backend false; StoreBackendID None])%list).
Proof.
  intros Hsync Hadd Hnil.
  rewrite RegisterBackend_submits, (submitBackend_sync _ _ _ Hsync), Hadd.
  now rewrite Hnil.
Qed.


(** C4.  The asynchronous path, taken when the async label is "true".  If
    [AddBackend] returns no error and the wait then returns an error (its
    failure error or its time-out error), [RegisterBackend] returns an error
    whose message ends with the message of that cause, and [sh.backendID]
    holds what [AddBackend] left in the backend: it was assigned before the
    wait and is not assigned again.  When that is an identifier, the next
    [DeregisterBackend] calls [DeleteBackend] with it. *)
Theorem RegisterBackend_async_failure_keeps_identifier
    c3 backend' taskURI sh' task' polls e :
  asyncLabel = "true" ->
  AddBackend c2 backend true = (c3, backend', (taskURI, None)) ->
  watchTaskStatus wakeups {| backendID := ID backend'; client := c3 |}
    {| ResourceURI := taskURI; Status := StatusPending; Info := "" |}
  = (Return (Some e), sh', task', polls) ->
  RegisterBackend apiDirectorPath env wakeups sh taskInfo
  = (Return (Some ("Could not register with VaaS director: " ++ e)), sh',
     (lookups
      ++ CallAddBackend backend true
         :: StoreBackendID (ID backend') :: polls)%list)
  /\ (e = timedOut \/ e = failed)
  /\ backendID sh' = ID backend'
  /\ stores polls = []
  /\ (forall id (taskInfo' : TaskInfo),
      ID backend' = Some id ->
      deleteCalls (snd (DeregisterBackend sh' taskInfo')) = [id]).
Proof.
  intros Hasync Hadd Hwatch.
  pose proof (watchTaskStatus_errors wakeups _ _ e
                (f_equal (fun r => fst (fst (fst r))) Hwatch)) as Hcause.
  pose proof (watchTaskStatus_backendID wakeups
                {| backendID := ID backend'; client := c3 |}
                {| ResourceURI := taskURI; Status := StatusPending;
                   Info := "" |}) as Hkept.
  pose proof (watchTaskStatus_stores wakeups
                {| backendID := ID backend'; client := c3 |}
                {| ResourceURI := taskURI; Status := StatusPending;
                   Info := "" |}) as Hstores.
  rewrite Hwatch in Hkept, Hstores. cbn [fst snd backendID] in Hkept, Hstores.
  split; [|repeat split; trivial].
  - rewrite RegisterBackend_submits. unfold submitBackend.
    apply String.eqb_eq in Hasync. rewrite Hasync, Hadd, Hwatch.
    reflexivity.
  - intros id taskInfo' Hid. unfold DeregisterBackend.
    rewrite Hkept, Hid.
    destruct (DeleteBackend (client sh') id) as [c' [e'|]]; reflexivity.
Qed.

(** C7.  The weight of the submitted backend.  A registration that reaches
    the submission submits one backend, whether or not the task has a weight
    label.  Its weight is the value of the environment variable
    VAAS_INITIAL_WEIGHT whenever [strconv.Atoi] accepts the text of that
    variable, whatever the label says; otherwise it is the weight of the
    label when [GetWeight] returns one, and absent when [GetWeight] returns
    an error. *)
Theorem RegisterBackend_weight_override :
  exists b async,
    addCalls (snd (RegisterBackend apiDirectorPath env wakeups sh taskInfo))
    = [(b, async)]
    /\ (forall v,
        Atoi (FindEnvValue taskInfo vaasInitialWeight) = Some v ->
        Weight b = Some v)
    /\ (forall w,
        Atoi (FindEnvValue taskInfo vaasInitialWeight) = None ->
        GetWeight taskInfo = (w, None) ->
        Weight b = Some w)
    /\ (forall w e,
        Atoi (FindEnvValue taskInfo vaasInitialWeight) = None ->
        GetWeight taskInfo = (w, Some e) ->
        Weight b = None).
Proof.
  exists backend, (asyncLabel =? "true")%string.
  split; [exact RegisterBackend_addCalls|].
  cbn [newBackend Weight]. unfold resolveInitialWeight.
  repeat split.
  - now intros v ->.
  - now intros w -> ->.
  - now intros w e -> ->.
Qed.

(** C9.  A registration that reaches the submission calls [AddBackend]
    once, and the async flag of that call is set exactly when the value of
    the label vaas-queue is the string "true".  With any other value,
    the empty one of an absent label included, the flag is false and the
    call is followed by no poll. *)
Theorem RegisterBackend_async_iff_label_true :
  exists async,
    addCalls (snd (RegisterBackend apiDirectorPath env wakeups sh taskInfo))
    = [(backend, async)]
    /\ (async = true <-> asyncLabel = "true")
    /\ (asyncLabel <> "true" ->
        async = false
        /\ statusCalls
             (snd (RegisterBackend apiDirectorPath env wakeups sh taskInfo))
           = []).
Proof.
  exists (asyncLabel =? "true")%string.
  split; [exact RegisterBackend_addCalls|].
  split; [apply String.eqb_eq|].
  intros Hsync. apply String.eqb_neq in Hsync.
  split; [exact Hsync|].
  rewrite RegisterBackend_submits. unfold after. cbn [snd app statusCalls].
  destruct (submitBackend_addCalls sh2 c2 backend) as (rest & -> & _ & Hnone).
  cbn [statusCalls]. exact (Hnone Hsync).
Qed.

Lemma newBackend_ext (taskInfo2 : TaskInfo) (dc' : DCDescriptor) id p :
  (forall key, GetLabelValue taskInfo2 key = GetLabelValue taskInfo key) ->
  GetWeight taskInfo2 = GetWeight taskInfo ->
  (forall key, FindEnvValue taskInfo2 key = FindEnvValue taskInfo key) ->
  newBackend apiDirectorPath env taskInfo2 dc' id p
  = newBackend apiDirectorPath env taskInfo dc' id p.
Proof.
  intros Hlabels Hweight Henv.
  unfold newBackend, resolveInitialWeight, canaryTags.
  now rewrite Hlabels, Hweight, Henv.
Qed.

Lemma submitBackend_ext (taskInfo2 : TaskInfo) (h : Hook C) c
    (b : Backend DCDescriptor) :
  (forall key, GetLabelValue taskInfo2 key = GetLabelValue taskInfo key) ->
  submitBackend wakeups h c taskInfo2 b = submitBackend wakeups h c taskInfo b.
Proof.
  intros Hlabels. unfold submitBackend. now rewrite Hlabels.
Qed.

(** C10.  A registration that reaches the submission of a task whose ports
    are [port0 :: others] submits a backend whose port is the number of
    [port0].  The ports after the first play no part: a task that answers
    every other query alike and has the same first port is registered in
    the same way, with the same result, the same calls and the same hook
    after the call. *)
Theorem RegisterBackend_port_is_first :
  (exists b async,
      addCalls (snd (RegisterBackend apiDirectorPath env wakeups sh taskInfo))
      = [(b, async)]
      /\ Port b = Z.of_N (Number port0))
  /\ (forall (taskInfo2 : TaskInfo) others2,
      (forall key, GetLabelValue taskInfo2 key = GetLabelValue taskInfo key) ->
      GetWeight taskInfo2 = GetWeight taskInfo ->
      (forall key, FindEnvValue taskInfo2 key = FindEnvValue taskInfo key) ->
      GetPorts taskInfo2 = port0 :: others2 ->
      RegisterBackend apiDirectorPath env wakeups sh taskInfo2
      = RegisterBackend apiDirectorPath env wakeups sh taskInfo).
Proof.
  split.
  - exists backend, (asyncLabel =? "true")%string.
    split; [exact RegisterBackend_addCalls|reflexivity].
  - intros taskInfo2 others2 Hlabels Hweight Henv Hports2.
    rewrite RegisterBackend_submits.
    unfold RegisterBackend. rewrite Hlabels.
    apply String.eqb_neq in director_set. rewrite director_set.
    rewrite datacenter_known, dc_found, director_found, Hports2.
    rewrite (newBackend_ext _ _ _ _ Hlabels Hweight Henv).
    now rewrite (submitBackend_ext _ _ _ _ Hlabels).
Qed.

End Registration.

(** ** Every path of a registration *)

Section Paths.

Context {DCDescriptor TaskInfo C : Type}.
Context {taskInfoMethods : TaskInfoMethods TaskInfo}.
Context {clientMethods : Client DCDescriptor C}.

Variable apiDirectorPath : string.

Implicit Types (env : RunEnv) (wakeups : list selectCase) (sh : Hook C).
Implicit Types (taskInfo : TaskInfo) (evs : list (event DCDescriptor)).

Lemma deleteCalls_polls (tasks : list Task) :
  deleteCalls (map (@CallTaskStatus DCDescriptor) tasks) = [].
Proof. induction tasks; [reflexivity|assumption]. Qed.

Lemma addCalls_polls (tasks : list Task) :
  addCalls (map (@CallTaskStatus DCDescriptor) tasks) = [].
Proof. induction tasks; [reflexivity|assumption]. Qed.

Lemma stores_polls (tasks : list Task) :
  stores (map (@CallTaskStatus DCDescriptor) tasks) = [].
Proof. induction tasks; [reflexivity|assumption]. Qed.

Lemma statusCalls_polls (tasks : list Task) :
  statusCalls (map (@CallTaskStatus DCDescriptor) tasks) = tasks.
Proof. induction tasks as [|t tasks IH]; [reflexivity|cbn; now rewrite IH]. Qed.

(** The events of a wait are its fetches. *)
Lemma watchTaskStatus_events wakeups : forall sh task,
  snd (watchTaskStatus wakeups sh task)
  = map (@CallTaskStatus DCDescriptor)
      (statusCalls (snd (watchTaskStatus wakeups sh task))).
Proof.
  induction wakeups as [|w later IH]; intros sh task; [reflexivity|].
  destruct w; [reflexivity|].
  rewrite watchTaskStatus_tick.
  destruct (pollOnce sh task) as [[[|err] sh1] task1]; [|reflexivity].
  unfold after. cbn [snd app statusCalls map]. now rewrite <- IH.
Qed.

Lemma watchTaskStatus_no_panic wakeups : forall sh task,
  fst (fst (fst (watchTaskStatus wakeups sh task))) <> Panic.
Proof.
  induction wakeups as [|w later IH]; intros sh task; [discriminate|].
  destruct w; [discriminate|].
  rewrite watchTaskStatus_tick.
  destruct (pollOnce sh task) as [[[|err] sh1] task1]; [|discriminate].
  unfold after. cbn [fst]. apply IH.
Qed.

(** What [submitBackend] does, by the answer of [AddBackend]. *)
Lemma submitBackend_cases wakeups sh c taskInfo (b : Backend DCDescriptor) :
  let async := (GetLabelValue taskInfo vaasAsyncLabelKey =? "true")%string in
  let '(c', b', (uri, err)) := AddBackend c b async in
  let '(o, sh', evs) := submitBackend wakeups sh c taskInfo b in
  match err with
  | Some e =>
      o = Return (Some (if async
                        then "Could not register with VaaS director: " ++ e
                        else e))
      /\ sh' = {| backendID := backendID sh; client := c' |}
      /\ evs = [CallAddBackend b async]
  | None =>
      exists polls,
        evs = CallAddBackend b async :: StoreBackendID (ID b')
              :: map (@CallTaskStatus DCDescriptor) polls
        /\ backendID sh' = ID b'
        /\ (async = false -> polls = [] /\ client sh' = c')
        /\ (o = Return None -> exists id, ID b' = Some id)
        /\ (o = Panic -> ID b' = None)
  end.
Proof.
  intros async. subst async. unfold submitBackend.
  destruct (GetLabelValue taskInfo vaasAsyncLabelKey =? "true")%string.
  - destruct (AddBackend c b true) as [[c' b'] [uri [e|]]]; [easy|].
    pose proof (watchTaskStatus_events wakeups
                  {| backendID := ID b'; client := c' |}
                  {| ResourceURI := uri; Status := StatusPending; Info := "" |})
      as Hevents.
    pose proof (watchTaskStatus_backendID wakeups
                  {| backendID := ID b'; client := c' |}
                  {| ResourceURI := uri; Status := StatusPending; Info := "" |})
      as Hkept.
    pose proof (watchTaskStatus_no_panic wakeups
                  {| backendID := ID b'; client := c' |}
                  {| ResourceURI := uri; Status := StatusPending; Info := "" |})
      as Hsafe.
    destruct (watchTaskStatus _ _ _) as [[[o sh2] task'] polls].
    cbn [fst snd backendID] in Hevents, Hkept, Hsafe.
    destruct o as [[e|]| |].
    + exists (statusCalls polls). rewrite <- Hevents. now repeat split.
    + destruct (backendID sh2) as [id|] eqn:Hid;
        exists (statusCalls polls); rewrite <- Hevents;
        repeat split; try easy; try congruence.
      intros _. exists id. congruence.
    + now contradiction Hsafe.
    + exists (statusCalls polls). rewrite <- Hevents. now repeat split.
  - destruct (AddBackend c b false) as [[c' b'] [uri [e|]]]; [easy|].
    cbn [backendID].
    destruct (ID b') as [id|]; exists []; repeat split; try easy.
    intros _. now exists id.
Qed.

(** Where a registration stops: the seven ways through lines 35 to 99. *)
Lemma RegisterBackend_cases env wakeups sh taskInfo :
  let director := GetLabelValue taskInfo vaasDirectorLabelKey in
  let r := RegisterBackend apiDirectorPath env wakeups sh taskInfo in
  (director = "" /\ r = (Return None, sh, []))
  \/ (director <> ""
      /\ exists d e,
          Datacenter env = (d, Some e) /\ r = (Return (Some e), sh, []))
  \/ (director <> ""
      /\ exists d c1 dc e,
          Datacenter env = (d, None)
          /\ GetDC (client sh) d = (c1, (dc, Some e))
          /\ r = (Return (Some e), {| backendID := backendID sh; client := c1 |},
                  [CallGetDC d]))
  \/ (director <> ""
      /\ exists d c1 dc c2 id e,
          Datacenter env = (d, None)
          /\ GetDC (client sh) d = (c1, (dc, None))
          /\ FindDirectorID c1 director = (c2, (id, Some e))
          /\ r = (Return (Some e), {| backendID := backendID sh; client := c2 |},
                  [CallGetDC d; CallFindDirectorID director]))
  \/ (director <> ""
      /\ exists d c1 dc c2 id,
          Datacenter env = (d, None)
          /\ GetDC (client sh) d = (c1, (dc, None))
          /\ FindDirectorID c1 director = (c2, (id, None))
          /\ GetPorts taskInfo = []
          /\ r = (Return (Some "Service has no ports available"),
                  {| backendID := backendID sh; client := c2 |},
                  [CallGetDC d; CallFindDirectorID director]))
  \/ (director <> ""
      /\ exists d c1 c2 id p ps,
          Datacenter env = (d, None)
          /\ GetDC (client sh) d = (c1, (None, None))
          /\ FindDirectorID c1 director = (c2, (id, None))
          /\ GetPorts taskInfo = p :: ps
          /\ r = (Panic, {| backendID := backendID sh; client := c2 |},
                  [CallGetDC d; CallFindDirectorID director]))
  \/ (director <> ""
      /\ exists d c1 dc c2 id p ps,
          Datacenter env = (d, None)
          /\ GetDC (client sh) d = (c1, (Some dc, None))
          /\ FindDirectorID c1 director = (c2, (id, None))
          /\ GetPorts taskInfo = p :: ps
          /\ r = after [CallGetDC d; CallFindDirectorID director]
                  (submitBackend wakeups
                     {| backendID := backendID sh; client := c2 |} c2 taskInfo
                     (newBackend apiDirectorPath env taskInfo dc id p))).
Proof.
  intros director r. subst r. unfold RegisterBackend. fold director.
  destruct (director =? "")%string eqn:Hdirector.
  { left. apply String.eqb_eq in Hdirector. now split. }
  apply String.eqb_neq in Hdirector. right.
  destruct (Datacenter env) as [d [e|]] eqn:Hruntime.
  { left. split; [assumption|]. now exists d, e. }
  right.
  destruct (GetDC (client sh) d) as [c1 [dc [e|]]] eqn:HgetDC.
  { left. split; [assumption|]. now exists d, c1, dc, e. }
  right.
  destruct (FindDirectorID c1 director) as [c2 [id [e|]]] eqn:Hfind.
  { left. split; [assumption|]. now exists d, c1, dc, c2, id, e. }
  right.
  destruct (GetPorts taskInfo) as [|p ps] eqn:Hports.
  { left. split; [assumption|]. now exists d, c1, dc, c2, id. }
  right.
  destruct dc as [dc|].
  - right. split; [assumption|]. now exists d, c1, dc, c2, id, p, ps.
  - left. split; [assumption|]. now exists d, c1, c2, id, p, ps.
Qed.

Ltac register_paths env wakeups sh taskInfo :=
  destruct (RegisterBackend_cases env wakeups sh taskInfo)
    as [Hpath|[Hpath|[Hpath|[Hpath|[Hpath|[Hpath|Hpath]]]]]];
  repeat match goal with
    | H : _ /\ _ |- _ => destruct H
    | H : exists _, _ |- _ => destruct H
    end;
  match goal with
  | H : RegisterBackend _ _ _ _ _ = _ |- _ => rewrite H
  end.

Ltac submit_cases :=
  match goal with
  | |- context [submitBackend ?ws ?h ?c ?ti ?b] =>
      pose proof (submitBackend_cases ws h c ti b) as Hsubmit;
      cbv zeta in Hsubmit;
      destruct (AddBackend c b _) as [[? ?] [? [?|]]];
      destruct (submitBackend ws h c ti b) as [[? ?] ?]
  end.

(** X1.  The calls of a registration, on every path and for every client:
    [DeleteBackend] is never called, [AddBackend] at most once, and
    [sh.backendID] is assigned at most once and only after a call of
    [AddBackend].  A registration that assigns nothing polls nothing and
    leaves [sh.backendID] as it was; one that assigns leaves the value it
    assigned. *)
Theorem RegisterBackend_call_discipline env wakeups sh taskInfo :
  let '(o, sh', evs) :=
    RegisterBackend apiDirectorPath env wakeups sh taskInfo in
  deleteCalls evs = []
  /\ (length (addCalls evs) <= 1)%nat
  /\ (length (stores evs) <= length (addCalls evs))%nat
  /\ (stores evs = [] -> statusCalls evs = [] /\ backendID sh' = backendID sh)
  /\ (forall v, In v (stores evs) -> backendID sh' = v).
Proof.
  register_paths env wakeups sh taskInfo;
    try (cbn; repeat split; (lia || easy)).
  submit_cases.
  - destruct Hsubmit as (_ & -> & ->). cbn. repeat split; (lia || easy).
  - destruct Hsubmit as (polls & -> & Hid & _).
    unfold after.
    cbn [fst snd app deleteCalls addCalls stores statusCalls length].
    rewrite deleteCalls_polls, addCalls_polls, stores_polls.
    repeat split; try (cbn; lia); try easy.
    intros v [<-|[]]. exact Hid.
Qed.

(** X2.  A registration that returns nil either was skipped, the task
    having no director label, with no call made and the hook untouched, or
    has called [AddBackend] once and holds the identifier that this call
    left in the backend. *)
Theorem RegisterBackend_nil_means_registered env wakeups sh taskInfo :
  let '(o, sh', evs) :=
    RegisterBackend apiDirectorPath env wakeups sh taskInfo in
  o = Return None ->
  (GetLabelValue taskInfo vaasDirectorLabelKey = "" /\ sh' = sh /\ evs = [])
  \/ (GetLabelValue taskInfo vaasDirectorLabelKey <> ""
      /\ exists id b async,
          backendID sh' = Some id
          /\ addCalls evs = [(b, async)]
          /\ stores evs = [Some id]).
Proof.
  register_paths env wakeups sh taskInfo; try discriminate.
  - intros _. now left.
  - submit_cases.
    + destruct Hsubmit as (-> & _). discriminate.
    + destruct Hsubmit as (polls & -> & Hid & _ & Hnil & _).
      unfold after. cbn [fst snd app].
      intros Ho. destruct (Hnil Ho) as [id' Hid'].
      right. split; [assumption|].
      exists id'. eexists. eexists.
      cbn [addCalls stores]. rewrite addCalls_polls, stores_polls.
      rewrite Hid, Hid'. now repeat split.
Qed.

(** X3.  A registration ends with nil, the hook untouched and no call made
    exactly when the task has no director label.  Nothing else of the task
    or of the environment is looked at in that case: not the datacenter,
    not the ports. *)
Theorem RegisterBackend_skips_iff_no_director env wakeups sh taskInfo :
  RegisterBackend apiDirectorPath env wakeups sh taskInfo = (Return None, sh, [])
  <-> GetLabelValue taskInfo vaasDirectorLabelKey = "".
Proof.
  split.
  - register_paths env wakeups sh taskInfo; easy.
  - intros Hskip. unfold RegisterBackend. now rewrite Hskip.
Qed.

(** X4.  The errors of the lookups come back as they are.  With a director
    label set: an error of [runenv.Datacenter] is returned before any call;
    an error of [GetDC] after that one call, the director not being looked
    up; an error of [FindDirectorID] after the two lookups.  In each case
    the error is the collaborator's own, [AddBackend] is not called and
    [sh.backendID] is not assigned. *)
Theorem RegisterBackend_lookup_errors env wakeups sh taskInfo :
  GetLabelValue taskInfo vaasDirectorLabelKey <> "" ->
  (forall d e,
      Datacenter env = (d, Some e) ->
      RegisterBackend apiDirectorPath env wakeups sh taskInfo
      = (Return (Some e), sh, []))
  /\ (forall d c1 dc e,
      Datacenter env = (d, None) ->
      GetDC (client sh) d = (c1, (dc, Some e)) ->
      RegisterBackend apiDirectorPath env wakeups sh taskInfo
      = (Return (Some e), {| backendID := backendID sh; client := c1 |},
         [CallGetDC d]))
  /\ (forall d c1 dc c2 id e,
      Datacenter env = (d, None) ->
      GetDC (client sh) d = (c1, (dc, None)) ->
      FindDirectorID c1 (GetLabelValue taskInfo vaasDirectorLabelKey)
      = (c2, (id, Some e)) ->
      RegisterBackend apiDirectorPath env wakeups sh taskInfo
      = (Return (Some e), {| backendID := backendID sh; client := c2 |},
         [CallGetDC d;
          CallFindDirectorID (GetLabelValue taskInfo vaasDirectorLabelKey)])).
Proof.
  intros Hset. apply String.eqb_neq in Hset.
  unfold RegisterBackend. rewrite Hset.
  split; [|split].
  - now intros d e ->.
  - now intros d c1 dc e -> ->.
  - now intros d c1 dc c2 id e -> -> ->.
Qed.

(** X5.  A task without ports is refused after the two lookups and before
    anything is submitted: the error is "Service has no ports available",
    [AddBackend] is not called, [sh.backendID] stays, and this holds even
    when [GetDC] returned a nil descriptor, which is only dereferenced
    later. *)
Theorem RegisterBackend_no_ports env wakeups sh taskInfo d c1 dc c2 id :
  GetLabelValue taskInfo vaasDirectorLabelKey <> "" ->
  Datacenter env = (d, None) ->
  GetDC (client sh) d = (c1, (dc, None)) ->
  FindDirectorID c1 (GetLabelValue taskInfo vaasDirectorLabelKey)
  = (c2, (id, None)) ->
  GetPorts taskInfo = [] ->
  RegisterBackend apiDirectorPath env wakeups sh taskInfo
  = (Return (Some "Service has no ports available"),
     {| backendID := backendID sh; client := c2 |},
     [CallGetDC d;
      CallFindDirectorID (GetLabelValue taskInfo vaasDirectorLabelKey)]).
Proof.
  intros Hset Hruntime HgetDC Hfind Hports.
  apply String.eqb_neq in Hset.
  unfold RegisterBackend.
  now rewrite Hset, Hruntime, HgetDC, Hfind, Hports.
Qed.

(** X6.  The nil pointers of a registration.  With the lookups done and a
    port at hand: a nil descriptor returned by [GetDC] without an error is
    dereferenced on line 95, before anything is submitted; and a submission
    that succeeds but leaves [backend.ID] nil is followed by the
    dereference of the nil [sh.backendID] on line 126, at once on the
    synchronous path and after a wait that returned nil on the asynchronous
    one.  In both cases [RegisterBackend] panics instead of returning. *)
Theorem RegisterBackend_nil_pointers env wakeups sh taskInfo d c1 c2 id p ps :
  GetLabelValue taskInfo vaasDirectorLabelKey <> "" ->
  Datacenter env = (d, None) ->
  FindDirectorID c1 (GetLabelValue taskInfo vaasDirectorLabelKey)
  = (c2, (id, None)) ->
  GetPorts taskInfo = p :: ps ->
  let lookups :=
    [CallGetDC d;
     CallFindDirectorID (GetLabelValue taskInfo vaasDirectorLabelKey)] in
  (GetDC (client sh) d = (c1, (None, None)) ->
   RegisterBackend apiDirectorPath env wakeups sh taskInfo
   = (Panic, {| backendID := backendID sh; client := c2 |}, lookups))
  /\ (forall dc c3 b' uri,
      GetDC (client sh) d = (c1, (Some dc, None)) ->
      let b := newBackend apiDirectorPath env taskInfo dc id p in
      GetLabelValue taskInfo vaasAsyncLabelKey <> "true" ->
      AddBackend c2 b false = (c3, b', (uri, None)) ->
      ID b' = None ->
      RegisterBackend apiDirectorPath env wakeups sh taskInfo
      = (Panic, {| backendID := None; client := c3 |},
         (lookups ++ [CallAddBackend b false; StoreBackendID None])%list))
  /\ (forall dc c3 b' uri sh' task' polls,
      GetDC (client sh) d = (c1, (Some dc, None)) ->
      let b := newBackend apiDirectorPath env taskInfo dc id p in
      GetLabelValue taskInfo vaasAsyncLabelKey = "true" ->
      AddBackend c2 b true = (c3, b', (uri, None)) ->
      ID b' = None ->
      watchTaskStatus wakeups {| backendID := None; client := c3 |}
        {| ResourceURI := uri; Status := StatusPending; Info := "" |}
      = (Return None, sh', task', polls) ->
      RegisterBackend apiDirectorPath env wakeups sh taskInfo
      = (Panic, sh',
         (lookups
          ++ CallAddBackend b true :: StoreBackendID None :: polls)%list)).
Proof.
  intros Hset Hruntime Hfind Hports lookups. subst lookups.
  apply String.eqb_neq in Hset.
  unfold RegisterBackend. rewrite Hset, Hruntime.
  split; [|split].
  - intros HgetDC. now rewrite HgetDC, Hfind, Hports.
  - intros dc c3 b' uri HgetDC Hsync Hadd Hnil.
    rewrite HgetDC, Hfind, Hports.
    apply String.eqb_neq in Hsync.
    unfold submitBackend. rewrite Hsync, Hadd.
    cbn [backendID]. now rewrite Hnil.
  - intros dc c3 b' uri sh' task' polls HgetDC Hasync Hadd Hnil Hwatch.
    rewrite HgetDC, Hfind, Hports.
    apply String.eqb_eq in Hasync.
    unfold submitBackend. rewrite Hasync, Hadd, Hnil, Hwatch.
    pose proof (watchTaskStatus_backendID wakeups
                  {| backendID := None; client := c3 |}
                  {| ResourceURI := uri; Status := StatusPending;
                     Info := "" |}) as Hkept.
    rewrite Hwatch in Hkept. cbn [fst snd backendID] in Hkept.
    now rewrite Hkept.
Qed.

(** Whatever [AddBackend] is called with was built on lines 91 to 99 from
    a descriptor and an identifier that the lookups returned. *)
Lemma RegisterBackend_addCalls_inv env wakeups sh taskInfo b async :
  In (b, async)
    (addCalls (snd (RegisterBackend apiDirectorPath env wakeups sh taskInfo))) ->
  exists d c1 dc c2 id p ps,
    Datacenter env = (d, None)
    /\ GetDC (client sh) d = (c1, (Some dc, None))
    /\ FindDirectorID c1 (GetLabelValue taskInfo vaasDirectorLabelKey)
       = (c2, (id, None))
    /\ GetPorts taskInfo = p :: ps
    /\ b = newBackend apiDirectorPath env taskInfo dc id p
    /\ async = (GetLabelValue taskInfo vaasAsyncLabelKey =? "true")%string.
Proof.
  register_paths env wakeups sh taskInfo; try easy.
  unfold after. cbn [snd app addCalls].
  submit_cases.
  - destruct Hsubmit as (_ & _ & ->). cbn [snd addCalls].
    intros [[= <- <-]|[]]. repeat eexists; eassumption.
  - destruct Hsubmit as (polls & -> & _). cbn [snd addCalls].
    rewrite addCalls_polls.
    intros [[= <- <-]|[]]. repeat eexists; eassumption.
Qed.

(** X7.  The tags of every submitted backend: none when the canary label is
    empty or absent, and the single tag "canary" for any other value of
    the label, whatever it says. *)
Theorem RegisterBackend_canary_tags env wakeups sh taskInfo b async :
  In (b, async)
    (addCalls (snd (RegisterBackend apiDirectorPath env wakeups sh taskInfo))) ->
  (GetLabelValue taskInfo canaryLabelKey = "" -> Tags b = [])
  /\ (GetLabelValue taskInfo canaryLabelKey <> "" -> Tags b = ["canary"]).
Proof.
  intros Hsubmitted.
  destruct (RegisterBackend_addCalls_inv _ _ _ _ _ _ Hsubmitted)
    as (d & c1 & dc & c2 & id & p & ps & _ & _ & _ & _ & -> & _).
  cbn [newBackend Tags]. unfold canaryTags.
  split.
  - now intros ->.
  - intros Hcanary. apply String.eqb_neq in Hcanary. now rewrite Hcanary.
Qed.

(** X8.  Every backend handed to [AddBackend] carries no identifier of its
    own, inherits the time profile, has the address of the run environment,
    and names its director by the path of the directors, the decimal digits
    of the identifier that [FindDirectorID] returned for the director
    label, and a slash. *)
Theorem RegisterBackend_submitted_backend env wakeups sh taskInfo b async :
  In (b, async)
    (addCalls (snd (RegisterBackend apiDirectorPath env wakeups sh taskInfo))) ->
  ID b = None
  /\ InheritTimeProfile b = true
  /\ Address b = IP env
  /\ exists c c' id,
      FindDirectorID c (GetLabelValue taskInfo vaasDirectorLabelKey)
      = (c', (id, None))
      /\ Director b = apiDirectorPath ++ fmt_d id ++ "/".
Proof.
  intros Hsubmitted.
  destruct (RegisterBackend_addCalls_inv _ _ _ _ _ _ Hsubmitted)
    as (d & c1 & dc & c2 & id & p & ps & _ & _ & Hfind & _ & -> & _).
  repeat split. now exists c1, c2, id.
Qed.

(** A registration deletes nothing, and leaves in [sh.backendID] the last
    value it assigned, or what was there. *)
Lemma RegisterBackend_frame env wakeups sh taskInfo :
  let '(o, sh', evs) :=
    RegisterBackend apiDirectorPath env wakeups sh taskInfo in
  deleteCalls evs = []
  /\ backendID sh' = last (stores evs) (backendID sh).
Proof.
  register_paths env wakeups sh taskInfo; try (now cbn).
  submit_cases.
  - destruct Hsubmit as (_ & -> & ->). now cbn.
  - destruct Hsubmit as (polls & -> & Hid & _).
    unfold after. cbn [fst snd app deleteCalls stores].
    rewrite deleteCalls_polls, stores_polls. now cbn.
Qed.

(** A registration of a task with a director that returns nil holds an
    identifier, assigned in that call. *)
Lemma RegisterBackend_nil_holds env wakeups sh taskInfo sh' evs :
  GetLabelValue taskInfo vaasDirectorLabelKey <> "" ->
  RegisterBackend apiDirectorPath env wakeups sh taskInfo
  = (Return None, sh', evs) ->
  exists id, backendID sh' = Some id /\ stores evs = [Some id].
Proof.
  intros Hset.
  register_paths env wakeups sh taskInfo; try easy.
  submit_cases.
  - destruct Hsubmit as (-> & _). discriminate.
  - destruct Hsubmit as (polls & -> & Hid & _ & Hnil & _).
    unfold after. cbn [fst snd app]. intros [= -> <- <-].
    destruct (Hnil eq_refl) as [id' Hid'].
    exists id'. cbn [stores]. rewrite stores_polls. split; congruence.
Qed.

Lemma fmt_d_inj n m : fmt_d n = fmt_d m -> n = m.
Proof.
  unfold fmt_d. intros Heq.
  assert (Hnonnil : forall z, Z.to_int z <> Pos Nil /\ Z.to_int z <> Neg Nil).
  { intros [|q|q]; cbn [Z.to_int]; split; try discriminate;
      intros [= Hq]; exact (Unsigned.to_uint_nonnil q Hq). }
  apply to_int_inj.
  apply (f_equal NilZero.int_of_string) in Heq.
  rewrite !NilZero.isi in Heq by apply Hnonnil.
  now injection Heq.
Qed.

Lemma append_inj_l (s x y : string) : s ++ x = s ++ y -> x = y.
Proof.
  induction s as [|c s IH]; cbn [append]; [easy|].
  intros [= Heq]. now apply IH.
Qed.

Lemma append_slash_inj (x y : string) : x ++ "/" = y ++ "/" -> x = y.
Proof.
  revert y. induction x as [|c x IH]; intros [|c' y]; cbn [append].
  - reflexivity.
  - intros [= _ Heq]. now destruct y.
  - intros [= _ Heq]. now destruct x.
  - intros [= -> Heq]. f_equal. now apply IH.
Qed.

(** X9.  The director reference of line 93 tells directors apart: two
    backends built for the same path of directors have the same reference
    only if their director identifiers are equal. *)
Theorem newBackend_director_injective env env' taskInfo taskInfo'
    (dc dc' : DCDescriptor) id id' p p' :
  Director (newBackend apiDirectorPath env taskInfo dc id p)
  = Director (newBackend apiDirectorPath env' taskInfo' dc' id' p') ->
  id = id'.
Proof.
  cbn [newBackend Director]. intros Heq.
  apply append_inj_l, append_slash_inj in Heq.
  now apply fmt_d_inj.
Qed.

(** X10.  The weight of the environment is taken as it is written: when
    VAAS_INITIAL_WEIGHT holds the decimal digits of an [int], zero and the
    negative ones included, every submitted backend has that number as its
    weight, whatever the weight label says; no bound is checked. *)
Theorem RegisterBackend_weight_from_decimal env wakeups sh taskInfo b async n :
  minInt <= n <= maxInt ->
  FindEnvValue taskInfo vaasInitialWeight = fmt_d n ->
  In (b, async)
    (addCalls (snd (RegisterBackend apiDirectorPath env wakeups sh taskInfo))) ->
  Weight b = Some n.
Proof.
  intros Hint Hvalue Hsubmitted.
  destruct (RegisterBackend_addCalls_inv _ _ _ _ _ _ Hsubmitted)
    as (d & c1 & dc & c2 & id & p & ps & _ & _ & _ & _ & -> & _).
  cbn [newBackend Weight]. unfold resolveInitialWeight.
  now rewrite Hvalue, (Atoi_fmt_d n Hint).
Qed.

End Paths.

(** ** The wait, on every schedule *)

Section Wait.

Context {DCDescriptor C : Type} {clientMethods : Client DCDescriptor C}.

Implicit Types (sh : Hook C) (task : Task) (wakeups : list selectCase).

Lemma failed_is_not_timedOut : failed <> timedOut.
Proof. discriminate. Qed.

(** A wait that returns nil has fetched, and leaves the task in Success. *)
Lemma watchTaskStatus_nil_task wakeups : forall sh task,
  fst (fst (fst (watchTaskStatus wakeups sh task))) = Return None ->
  Status (snd (fst (watchTaskStatus wakeups sh task))) = StatusSuccess
  /\ snd (watchTaskStatus wakeups sh task) <> [].
Proof.
  induction wakeups as [|w later IH]; intros sh task; [discriminate|].
  destruct w; [discriminate|].
  rewrite watchTaskStatus_tick. unfold pollOnce.
  destruct (TaskStatus (client sh) task) as [[c task1] [e|]].
  - unfold after. cbn [fst snd app]. intros Hnil.
    split; [now apply IH|discriminate].
  - destruct (Status task1) eqn:Hstatus.
    + unfold after. cbn [fst snd app]. intros Hnil.
      split; [now apply IH|discriminate].
    + now intros _.
    + discriminate.
Qed.

(** X11.  What the result of a wait says about the task.  The wait returns
    nil only straight after a fetch that returned no error and left the
    task in Success, and it returns the failure error only straight after
    one that returned no error and left it in Failure; in both cases that
    fetch was its last call and the task is returned as that fetch left
    it. *)
Theorem watchTaskStatus_sound wakeups : forall sh task,
  let '(o, sh', task', evs) := watchTaskStatus wakeups sh task in
  (o = Return None \/ o = Return (Some failed)) ->
  exists c earlier last,
    statusCalls evs = (earlier ++ [last])%list
    /\ TaskStatus c last = (client sh', task', None)
    /\ Status task'
       = match o with Return None => StatusSuccess | _ => StatusFailure end.
Proof.
  induction wakeups as [|w later IH]; intros sh task.
  - cbn. intros [|]; discriminate.
  - destruct w.
    + cbn. intros [|Hfailed]; [discriminate|].
      injection Hfailed as Hfailed.
      now contradiction failed_is_not_timedOut.
    + rewrite watchTaskStatus_tick. unfold pollOnce.
      destruct (TaskStatus (client sh) task) as [[c task1] [e|]] eqn:Hfetch.
      * specialize (IH {| backendID := backendID sh; client := c |} task1).
        destruct (watchTaskStatus later _ task1) as [[[o sh'] task'] evs].
        unfold after. cbn [fst snd app statusCalls].
        intros Ho. destruct (IH Ho) as (c0 & earlier & last & -> & Hlast).
        now exists c0, (task :: earlier), last.
      * destruct (Status task1) eqn:Hstatus.
        -- specialize (IH {| backendID := backendID sh; client := c |} task1).
           destruct (watchTaskStatus later _ task1) as [[[o sh'] task'] evs].
           unfold after. cbn [fst snd app statusCalls].
           intros Ho. destruct (IH Ho) as (c0 & earlier & last & -> & Hlast).
           now exists c0, (task :: earlier), last.
        -- intros _. exists (client sh), [], task.
           cbn [statusCalls app client]. now rewrite Hstatus.
        -- intros [|_]; [discriminate|].
           exists (client sh), [], task.
           cbn [statusCalls app client]. now rewrite Hstatus.
Qed.

(** X12.  A wait is decided by the wake-ups it has received: as soon as a
    schedule makes it return, nothing that follows in the schedule changes
    the result, the calls made, the hook or the task. *)
Theorem watchTaskStatus_decided wakeups : forall more sh task,
  fst (fst (fst (watchTaskStatus wakeups sh task))) <> Blocked ->
  watchTaskStatus (wakeups ++ more) sh task = watchTaskStatus wakeups sh task.
Proof.
  induction wakeups as [|w later IH]; intros more sh task Hdone.
  - now contradiction Hdone.
  - destruct w; [reflexivity|].
    cbn [app]. rewrite !watchTaskStatus_tick in *.
    destruct (pollOnce sh task) as [[[|err] sh1] task1]; [|reflexivity].
    unfold after in *. cbn [fst] in Hdone.
    now rewrite (IH more sh1 task1 Hdone).
Qed.

(** X13.  What a wait leaves alone, on every schedule and for every client:
    it never panics, never assigns [sh.backendID], and calls no method of
    the client but [TaskStatus]. *)
Theorem watchTaskStatus_frame wakeups sh task :
  let '(o, sh', task', evs) := watchTaskStatus wakeups sh task in
  o <> Panic
  /\ backendID sh' = backendID sh
  /\ stores evs = []
  /\ clientCalls evs = map (@CallTaskStatus DCDescriptor) (statusCalls evs).
Proof.
  pose proof (watchTaskStatus_no_panic wakeups sh task) as Hsafe.
  pose proof (watchTaskStatus_backendID wakeups sh task) as Hkept.
  pose proof (watchTaskStatus_events wakeups sh task) as Hevents.
  destruct (watchTaskStatus wakeups sh task) as [[[o sh'] task'] evs].
  cbn [fst snd] in Hsafe, Hkept, Hevents.
  repeat split; try assumption.
  - rewrite Hevents. apply stores_polls.
  - rewrite Hevents at 1. unfold clientCalls. clear.
    induction (statusCalls evs) as [|t ts IH]; [reflexivity|].
    cbn. now rewrite IH.
Qed.

(** X14.  The fetches of a wait follow one another on the same task: the
    first is made with the task the wait was given, and each later one
    with the task as the fetch before it left it. *)
Theorem watchTaskStatus_fetches_chain wakeups : forall sh task,
  statusCalls (snd (watchTaskStatus wakeups sh task))
  = fetchedTasks (length (snd (watchTaskStatus wakeups sh task)))
      (client sh) task.
Proof.
  induction wakeups as [|w later IH]; intros sh task; [reflexivity|].
  destruct w; [reflexivity|].
  rewrite watchTaskStatus_tick. unfold pollOnce.
  destruct (TaskStatus (client sh) task) as [[c task1] [e|]] eqn:Hfetch.
  - unfold after. cbn [snd app statusCalls length fetchedTasks].
    rewrite Hfetch, IH. reflexivity.
  - destruct (Status task1).
    + unfold after. cbn [snd app statusCalls length fetchedTasks].
      rewrite Hfetch, IH. reflexivity.
    + cbn [snd statusCalls length fetchedTasks]. now rewrite Hfetch.
    + cbn [snd statusCalls length fetchedTasks]. now rewrite Hfetch.
Qed.

End Wait.

(** ** The asynchronous path *)

Section Queue.

Context {DCDescriptor TaskInfo C : Type}.
Context {taskInfoMethods : TaskInfoMethods TaskInfo}.
Context {clientMethods : Client DCDescriptor C}.

Variable apiDirectorPath : string.
Variable env : RunEnv.
Variable wakeups : list selectCase.
Variable sh : Hook C.
Variable taskInfo : TaskInfo.

(** A registration through the queue that gets as far as the submission. *)
Variables (runtimeDC : string) (dc : DCDescriptor) (c1 c2 : C) (directorID : Z).
Variables (port0 : mesos_Port) (others : list mesos_Port).

Hypothesis director_set : GetLabelValue taskInfo vaasDirectorLabelKey <> "".
Hypothesis datacenter_known : Datacenter env = (runtimeDC, None).
Hypothesis dc_found : GetDC (client sh) runtimeDC = (c1, (Some dc, None)).
Hypothesis director_found :
  FindDirectorID c1 (GetLabelValue taskInfo vaasDirectorLabelKey)
  = (c2, (directorID, None)).
Hypothesis ports_advertised : GetPorts taskInfo = port0 :: others.
Hypothesis queue_asked : GetLabelValue taskInfo vaasAsyncLabelKey = "true".

Local Abbreviation director := (GetLabelValue taskInfo vaasDirectorLabelKey).
Local Abbreviation lookups := [CallGetDC runtimeDC; CallFindDirectorID director].
Local Abbreviation backend :=
  (newBackend apiDirectorPath env taskInfo dc directorID port0).

Lemma RegisterBackend_queued :
  RegisterBackend apiDirectorPath env wakeups sh taskInfo
  = after lookups
      (submitBackend wakeups {| backendID := backendID sh; client := c2 |} c2
         taskInfo backend).
Proof.
  exact (RegisterBackend_submits apiDirectorPath env wakeups sh taskInfo
           runtimeDC dc c1 c2 directorID port0 others
           director_set datacenter_known dc_found director_found
           ports_advertised).
Qed.

(** X15.  A submission to the queue that is refused ends the registration
    at once: the error returned is the error of [AddBackend] behind the
    words "Could not register with VaaS director: ", no fetch is made,
    whatever the schedule, and [sh.backendID] is not assigned. *)
Theorem RegisterBackend_async_submit_refused c3 b' uri e :
  AddBackend c2 backend true = (c3, b', (uri, Some e)) ->
  RegisterBackend apiDirectorPath env wakeups sh taskInfo
  = (Return (Some ("Could not register with VaaS director: " ++ e)),
     {| backendID := backendID sh; client := c3 |},
     (lookups ++ [CallAddBackend backend true])%list).
Proof.
  intros Hadd. rewrite RegisterBackend_queued. unfold submitBackend.
  apply String.eqb_eq in queue_asked. now rewrite queue_asked, Hadd.
Qed.

(** X16.  A registration through the queue returns nil when [AddBackend]
    returned no error and an identifier, and the wait returned nil.  The hook
    then holds that identifier, assigned before the first fetch, and the
    last fetch left the task in Success. *)
Theorem RegisterBackend_async_success c3 b' uri id sh' task' polls :
  AddBackend c2 backend true = (c3, b', (uri, None)) ->
  ID b' = Some id ->
  watchTaskStatus wakeups {| backendID := Some id; client := c3 |}
    {| ResourceURI := uri; Status := StatusPending; Info := "" |}
  = (Return None, sh', task', polls) ->
  RegisterBackend apiDirectorPath env wakeups sh taskInfo
  = (Return None, sh',
     (lookups
      ++ CallAddBackend backend true :: StoreBackendID (Some id) :: polls)%list)
  /\ backendID sh' = Some id
  /\ Status task' = StatusSuccess
  /\ polls <> [].
Proof.
  intros Hadd Hid Hwatch.
  pose proof (watchTaskStatus_backendID wakeups
                {| backendID := Some id; client := c3 |}
                {| ResourceURI := uri; Status := StatusPending;
                   Info := "" |}) as Hkept.
  pose proof (watchTaskStatus_nil_task wakeups
                {| backendID := Some id; client := c3 |}
                {| ResourceURI := uri; Status := StatusPending;
                   Info := "" |}) as Hsound.
  rewrite Hwatch in Hkept, Hsound. cbn [fst snd backendID] in Hkept, Hsound.
  destruct (Hsound eq_refl) as [Hstatus Hpolled].
  split; [|repeat split; trivial].
  - rewrite RegisterBackend_queued. unfold submitBackend.
    apply String.eqb_eq in queue_asked.
    now rewrite queue_asked, Hadd, Hid, Hwatch, Hkept.
Qed.

(** X17.  The first fetch of a registration through the queue is made on
    the task that [AddBackend] named: with the locator it returned, in state
    Pending and without info.  It is made when a tick comes first in the
    schedule; when the timer comes first, no fetch is made at all. *)
Theorem RegisterBackend_async_first_fetch c3 b' uri :
  AddBackend c2 backend true = (c3, b', (uri, None)) ->
  let evs := snd (RegisterBackend apiDirectorPath env wakeups sh taskInfo) in
  (forall later,
      wakeups = TickerC :: later ->
      hd_error (statusCalls evs)
      = Some {| ResourceURI := uri; Status := StatusPending; Info := "" |})
  /\ (forall later, wakeups = TimerC :: later -> statusCalls evs = []).
Proof.
  intros Hadd evs. subst evs.
  assert (Hcalls :
    statusCalls (snd (RegisterBackend apiDirectorPath env wakeups sh taskInfo))
    = statusCalls
        (snd (watchTaskStatus wakeups {| backendID := ID b'; client := c3 |}
                {| ResourceURI := uri; Status := StatusPending; Info := "" |}))).
  { rewrite RegisterBackend_queued. unfold submitBackend.
    apply String.eqb_eq in queue_asked. rewrite queue_asked, Hadd.
    destruct (watchTaskStatus _ _ _) as [[[o sh2] task'] polls].
    unfold after. cbn [snd].
    destruct o as [[e|]| |]; [| destruct (backendID sh2) | |]; reflexivity. }
  rewrite Hcalls. split.
  - intros later ->. rewrite watchTaskStatus_tick.
    destruct (pollOnce _ _) as [[[|err] sh1] task1]; reflexivity.
  - now intros later ->.
Qed.

End Queue.

(** ** Sequences of events *)

Section Lifecycle.

Context {DCDescriptor TaskInfo C : Type}.
Context {taskInfoMethods : TaskInfoMethods TaskInfo}.
Context {clientMethods : Client DCDescriptor C}.

Variable apiDirectorPath : string.

Implicit Types (env : RunEnv) (sh : Hook C) (taskInfo : TaskInfo).
Implicit Types (evs : list (hook.Event TaskInfo * list selectCase)).

(** X18.  The calls of a deregistration, on every path and for every
    client: nothing is called but [DeleteBackend], at most once and with
    the identifier the hook holds; and [sh.backendID] is either left as it
    was or cleared, cleared only when that call returned nil. *)
Theorem DeregisterBackend_call_discipline sh taskInfo :
  let '(o, sh', calls) := DeregisterBackend sh taskInfo in
  clientCalls calls
  = match backendID sh with
    | Some id => [CallDeleteBackend id]
    | None => []
    end
  /\ (backendID sh' = backendID sh /\ stores calls = []
      \/ backendID sh' = None /\ stores calls = [None] /\ o = Return None
         /\ exists id c,
             backendID sh = Some id
             /\ DeleteBackend (client sh) id = (c, None)).
Proof.
  unfold DeregisterBackend.
  destruct (backendID sh) as [id|] eqn:Hheld.
  - destruct (DeleteBackend (client sh) id) as [c [e|]] eqn:Hdelete.
    + split; [reflexivity|]. left. now split.
    + split; [reflexivity|]. right. repeat split. now exists id, c.
  - split; [reflexivity|]. left. now split.
Qed.

Lemma stores_app (a b : list (event DCDescriptor)) :
  stores (a ++ b) = (stores a ++ stores b)%list.
Proof.
  induction a as [|[] a IH]; cbn [app stores]; try assumption.
  - reflexivity.
  - now rewrite IH.
Qed.

Lemma deleteCalls_app (a b : list (event DCDescriptor)) :
  deleteCalls (a ++ b) = (deleteCalls a ++ deleteCalls b)%list.
Proof.
  induction a as [|[] a IH]; cbn [app deleteCalls]; try assumption.
  - reflexivity.
  - now rewrite IH.
Qed.

Lemma last_cons_default {A : Type} (y : list A) : forall (b d d' : A),
  last (b :: y) d = last (b :: y) d'.
Proof.
  induction y as [|b' y IH]; intros b d d'; [reflexivity|].
  change (last (b' :: y) d = last (b' :: y) d'). apply IH.
Qed.

Lemma last_app_default {A : Type} (x y : list A) (d : A) :
  last (x ++ y) d = last y (last x d).
Proof.
  revert d. induction x as [|a x IH]; intros d; [reflexivity|].
  destruct x as [|a' x].
  - destruct y as [|b y]; [reflexivity|].
    change (last (b :: y) d = last (b :: y) a). apply last_cons_default.
  - change (last ((a :: a' :: x) ++ y) d) with (last ((a' :: x) ++ y) d).
    rewrite IH. reflexivity.
Qed.

Lemma deletesHeld_app (a b : list (event DCDescriptor)) : forall held,
  deletesHeld held (a ++ b)
  = deletesHeld held a && deletesHeld (last (stores a) held) b.
Proof.
  induction a as [|ev a IH]; intros held; [reflexivity|].
  destruct ev; cbn [app deletesHeld stores]; try apply IH.
  - destruct held as [h|]; [|reflexivity].
    rewrite IH. apply andb_assoc.
  - rewrite IH. f_equal. f_equal.
    destruct (stores a) as [|v l]; [reflexivity|].
    change (last (v :: l) id = last (v :: l) held).
    apply last_cons_default.
Qed.

Lemma deletesHeld_no_delete (calls : list (event DCDescriptor)) : forall held,
  deleteCalls calls = [] -> deletesHeld held calls = true.
Proof.
  induction calls as [|ev calls IH]; intros held; [reflexivity|].
  destruct ev; cbn [deleteCalls deletesHeld]; try apply IH.
  discriminate.
Qed.

Lemma deletesHeld_in (calls : list (event DCDescriptor)) : forall held id,
  deletesHeld held calls = true ->
  In id (deleteCalls calls) ->
  held = Some id \/ In (Some id) (stores calls).
Proof.
  induction calls as [|ev calls IH]; intros held id; [easy|].
  destruct ev; cbn [deleteCalls deletesHeld stores]; try apply IH.
  - destruct held as [h|]; [|discriminate].
    intros Hheld [<-|Hin].
    + apply andb_prop in Hheld as [Heq _]. apply Z.eqb_eq in Heq.
      left. now subst.
    + apply andb_prop in Hheld as [_ Hrest]. exact (IH _ _ Hrest Hin).
  - intros Hheld Hin. destruct (IH _ _ Hheld Hin) as [->|Hstored].
    + right. now left.
    + right. now right.
Qed.

(** One event: the hook ends with the last value assigned, and what is
    deleted is what the hook held. *)
Lemma HandleEvent_held env wakeups sh (ev : hook.Event TaskInfo) :
  let '(o, sh', calls) := HandleEvent apiDirectorPath env wakeups sh ev in
  backendID sh' = last (stores calls) (backendID sh)
  /\ deletesHeld (backendID sh) calls = true.
Proof.
  unfold HandleEvent. destruct (hook.Type' ev).
  - pose proof (RegisterBackend_frame apiDirectorPath env wakeups sh
                  (hook.TaskInfo ev)) as Hframe.
    destruct (RegisterBackend _ _ _ _ _) as [[o sh'] calls].
    destruct Hframe as [Hnone Hlast].
    split; [assumption|now apply deletesHeld_no_delete].
  - unfold DeregisterBackend.
    destruct (backendID sh) as [id|] eqn:Hheld; [|now split].
    destruct (DeleteBackend (client sh) id) as [c [e|]];
      cbn; now rewrite Z.eqb_refl.
  - now split.
Qed.

Lemma handleEvents_held env evs : forall sh,
  let '(os, sh', calls) := handleEvents apiDirectorPath env sh evs in
  backendID sh' = last (stores calls) (backendID sh)
  /\ deletesHeld (backendID sh) calls = true.
Proof.
  induction evs as [|[ev wakeups] later IH]; intros sh; [now split|].
  cbn [handleEvents].
  pose proof (HandleEvent_held env wakeups sh ev) as Hstep.
  destruct (HandleEvent _ _ _ _ _) as [[o sh1] calls1].
  destruct Hstep as [Hlast1 Hheld1].
  destruct o as [r| |]; [|now split..].
  specialize (IH sh1).
  destruct (handleEvents _ _ _ _) as [[os sh2] calls2].
  destruct IH as [Hlast2 Hheld2].
  rewrite stores_app, last_app_default, deletesHeld_app.
  rewrite <- Hlast1, Hheld1, Hheld2. now split.
Qed.

(** X22.  Over any sequence of events and for any client, the hook deletes
    only what it holds: each call of [DeleteBackend] is made with the
    identifier that [sh.backendID] holds at that point.  So an identifier
    is deleted only if the hook held it at the start or took it over from a
    submitted backend earlier in the sequence. *)
Theorem handleEvents_deletes_held env sh evs :
  let '(os, sh', calls) := handleEvents apiDirectorPath env sh evs in
  deletesHeld (backendID sh) calls = true
  /\ (forall id,
      In id (deleteCalls calls) ->
      backendID sh = Some id \/ In (Some id) (stores calls)).
Proof.
  pose proof (handleEvents_held env evs sh) as Hheld.
  destruct (handleEvents _ _ _ _) as [[os sh'] calls].
  destruct Hheld as [_ Hheld].
  split; [assumption|].
  intros id. now apply deletesHeld_in.
Qed.

(** X20.  Events of other kinds leave no trace: taking them out of a
    sequence changes neither the calls made nor the hook at the end, and a
    sequence of such events alone returns nil each time, calls nothing and
    leaves the hook as it was. *)
Theorem handleEvents_ignores_other_events env evs :
  (forall sh,
      let known :=
        filter (fun x => negb (isOtherEvent (hook.Type' (fst x)))) evs in
      snd (fst (handleEvents apiDirectorPath env sh known))
      = snd (fst (handleEvents apiDirectorPath env sh evs))
      /\ snd (handleEvents apiDirectorPath env sh known)
         = snd (handleEvents apiDirectorPath env sh evs))
  /\ (forall sh,
      forallb (fun x => isOtherEvent (hook.Type' (fst x))) evs = true ->
      handleEvents apiDirectorPath env sh evs
      = (repeat (Return None) (length evs), sh, [])).
Proof.
  split.
  - induction evs as [|[ev wakeups] later IH]; intros sh; [now split|].
    cbn [filter fst].
    destruct (hook.Type' ev) eqn:Hkind; cbn [isOtherEvent negb];
      cbn [handleEvents]; unfold HandleEvent; rewrite ?Hkind.
    + destruct (RegisterBackend _ _ _ _ _) as [[o sh1] calls1].
      destruct o as [r| |]; [|now split..].
      specialize (IH sh1). cbv zeta in IH.
      destruct (handleEvents _ _ sh1 (filter _ _)) as [[os sh2] calls2].
      destruct (handleEvents _ _ sh1 later) as [[os' sh2'] calls2'].
      cbn [fst snd] in *. destruct IH as [-> ->]. now split.
    + destruct (DeregisterBackend _ _) as [[o sh1] calls1].
      destruct o as [r| |]; [|now split..].
      specialize (IH sh1). cbv zeta in IH.
      destruct (handleEvents _ _ sh1 (filter _ _)) as [[os sh2] calls2].
      destruct (handleEvents _ _ sh1 later) as [[os' sh2'] calls2'].
      cbn [fst snd] in *. destruct IH as [-> ->]. now split.
    + specialize (IH sh). cbv zeta in IH.
      destruct (handleEvents _ _ sh (filter _ _)) as [[os sh2] calls2].
      destruct (handleEvents _ _ sh later) as [[os' sh2'] calls2'].
      cbn [fst snd app] in *. exact IH.
  - induction evs as [|[ev wakeups] later IH]; intros sh; [reflexivity|].
    cbn [forallb fst]. intros Hother.
    apply andb_prop in Hother as [Hev Hlater].
    cbn [handleEvents]. unfold HandleEvent.
    destruct (hook.Type' ev); try discriminate.
    now rewrite (IH sh Hlater).
Qed.

(** X19.  Deregistration can be retried until it succeeds.  When the hook
    holds an identifier and [DeleteBackend] refuses it [k] times before it
    accepts, [k + 1] terminate events in a row return the [k] errors and
    then nil, call [DeleteBackend] [k + 1] times with that same identifier,
    and only the last of them clears [sh.backendID]. *)
Theorem handleEvents_retries_delete env k : forall evs sh id ck errs c',
  backendID sh = Some id ->
  length evs = S k ->
  forallb (fun x => isTerminate (hook.Type' (fst x))) evs = true ->
  refusals k (client sh) id = Some (ck, errs) ->
  DeleteBackend ck id = (c', None) ->
  handleEvents apiDirectorPath env sh evs
  = ((map (fun e => Return (Some e)) errs ++ [Return None])%list,
     {| backendID := None; client := c' |},
     (repeat (CallDeleteBackend id) (S k) ++ [StoreBackendID None])%list).
Proof.
  induction k as [|k IH];
    intros [|[ev wakeups] later] sh id ck errs c' Hheld Hlength Hkinds
      Hrefused Haccepted; try discriminate;
    cbn [forallb fst] in Hkinds; apply andb_prop in Hkinds as [Hkind Hlater];
    cbn [handleEvents]; unfold HandleEvent;
    destruct (hook.Type' ev); try discriminate;
    unfold DeregisterBackend; rewrite Hheld.
  - destruct later; [|discriminate].
    cbn in Hrefused. injection Hrefused as <- <-.
    now rewrite Haccepted.
  - cbn [refusals] in Hrefused.
    destruct (DeleteBackend (client sh) id) as [c1 [e|]]; [|discriminate].
    destruct (refusals k c1 id) as [[c2 es]|] eqn:Hrest; [|discriminate].
    injection Hrefused as <- <-.
    injection Hlength as Hlength.
    rewrite (IH later {| backendID := Some id; client := c1 |} id c2 es c'
               eq_refl Hlength Hlater Hrest Haccepted).
    reflexivity.
Qed.

(** X21.  Registering and deregistering undo each other in the hook.  When
    a healthy event for a task with a director returns nil, the hook holds
    the identifier that the submission assigned; a terminate event that
    follows calls [DeleteBackend] with exactly that identifier and, when
    the call returns nil, leaves the hook without one. *)
Theorem handleEvents_register_then_deregister env sh
    (healthy terminate : hook.Event TaskInfo) wakeups wakeups' sh1 calls1 :
  hook.Type' healthy = hook.AfterTaskHealthyEvent ->
  hook.Type' terminate = hook.BeforeTerminateEvent ->
  GetLabelValue (hook.TaskInfo healthy) vaasDirectorLabelKey <> "" ->
  RegisterBackend apiDirectorPath env wakeups sh (hook.TaskInfo healthy)
  = (Return None, sh1, calls1) ->
  exists id,
    backendID sh1 = Some id
    /\ stores calls1 = [Some id]
    /\ forall c,
        DeleteBackend (client sh1) id = (c, None) ->
        handleEvents apiDirectorPath env sh
          [(healthy, wakeups); (terminate, wakeups')]
        = ([Return None; Return None],
           {| backendID := None; client := c |},
           (calls1 ++ [CallDeleteBackend id; StoreBackendID None])%list).
Proof.
  intros Hhealthy Hterminate Hset Hregistered.
  destruct (RegisterBackend_nil_holds apiDirectorPath _ _ _ _ _ _
              Hset Hregistered) as (id & Hheld & Hstored).
  exists id. repeat split; try assumption.
  intros c Hdelete.
  cbn [handleEvents]. unfold HandleEvent.
  rewrite Hhealthy, Hregistered, Hterminate.
  unfold DeregisterBackend. now rewrite Hheld, Hdelete.
Qed.

(** X23.  A registration never deletes what the hook already holds.  When
    two healthy events in a row both return and the hook then holds an
    identifier, a terminate event deletes that identifier and no other: an
    identifier the hook held before the first registration or between the
    two stays undeleted, unless it is the same. *)
Theorem handleEvents_second_registration_replaces env sh
    (first second terminate : hook.Event TaskInfo)
    wakeups1 wakeups2 wakeups3 r1 sh1 calls1 r2 sh2 calls2 id c :
  hook.Type' first = hook.AfterTaskHealthyEvent ->
  hook.Type' second = hook.AfterTaskHealthyEvent ->
  hook.Type' terminate = hook.BeforeTerminateEvent ->
  RegisterBackend apiDirectorPath env wakeups1 sh (hook.TaskInfo first)
  = (Return r1, sh1, calls1) ->
  RegisterBackend apiDirectorPath env wakeups2 sh1 (hook.TaskInfo second)
  = (Return r2, sh2, calls2) ->
  backendID sh2 = Some id ->
  DeleteBackend (client sh2) id = (c, None) ->
  let '(os, sh', calls) :=
    handleEvents apiDirectorPath env sh
      [(first, wakeups1); (second, wakeups2); (terminate, wakeups3)] in
  os = [Return r1; Return r2; Return None]
  /\ sh' = {| backendID := None; client := c |}
  /\ deleteCalls calls = [id]
  /\ forall held,
      backendID sh = Some held \/ backendID sh1 = Some held ->
      held <> id ->
      ~ In held (deleteCalls calls).
Proof.
  intros Hfirst Hsecond Hterminate Hone Htwo Hheld Hdelete.
  pose proof (RegisterBackend_frame apiDirectorPath env wakeups1 sh
                (hook.TaskInfo first)) as Hframe1.
  pose proof (RegisterBackend_frame apiDirectorPath env wakeups2 sh1
                (hook.TaskInfo second)) as Hframe2.
  rewrite Hone in Hframe1. rewrite Htwo in Hframe2.
  destruct Hframe1 as [Hnone1 _]. destruct Hframe2 as [Hnone2 _].
  cbn [handleEvents]. unfold HandleEvent.
  rewrite Hfirst, Hone, Hsecond, Htwo, Hterminate.
  unfold DeregisterBackend. rewrite Hheld, Hdelete.
  rewrite !deleteCalls_app, Hnone1, Hnone2.
  repeat split.
  intros held _ Hother [Hin|[]]. now apply Hother.
Qed.

(** X24.  A hook fresh from [NewHook] holds no identifier, and [NewHook]
    returns no error; so terminate events that reach it before any
    registration return nil, call nothing and leave it as it was, however
    many they are. *)
Theorem NewHook_deregisters_nothing env
    (NewClient : string -> string -> string -> C) apiHost apiUsername apiKey :
  let sh := fst (NewHook NewClient apiHost apiUsername apiKey) in
  snd (NewHook NewClient apiHost apiUsername apiKey) = None
  /\ backendID sh = None
  /\ forall evs,
      forallb (fun x => isTerminate (hook.Type' (fst x))) evs = true ->
      handleEvents apiDirectorPath env sh evs
      = (repeat (Return None) (length evs), sh, []).
Proof.
  cbn [NewHook fst snd]. repeat split.
  induction evs as [|[ev wakeups] later IH]; [reflexivity|].
  cbn [forallb fst]. intros Hkinds.
  apply andb_prop in Hkinds as [Hkind Hlater].
  cbn [handleEvents]. unfold HandleEvent.
  destruct (hook.Type' ev); try discriminate.
  cbn [DeregisterBackend backendID]. now rewrite (IH Hlater).
Qed.

End Lifecycle.

(** ** The entry point *)

Section MainProperties.

Context {Config : Type}.
Variable SentryDSN : Config -> string.
Variable Debug : Config -> bool.
Variable Version : string.
Variable Environment : string * option error.
Variable LocalEnv : string.
Variable raven_New : string -> option error.
Variable NewWithClientSentryHook : RavenClient -> list Level -> option error.
Variable Process : Config * option error.

Local Abbreviation initSentry' :=
  (initSentry SentryDSN Version Environment LocalEnv raven_New
     NewWithClientSentryHook).

Lemma length_zero_iff_empty (s : string) :
  (String.length s =? 0)%nat = true <-> s = "".
Proof.
  destruct s; cbn; [easy|]. split; discriminate.
Qed.

(** X25.  What [initSentry] adds to the logger.  A hook is added only when
    the configuration has a DSN, the run environment is known and is not
    the local one; the hook then reports to that DSN with the release
    [Version] and that environment, on the levels panic, fatal and error,
    with a timeout of one second, and [initSentry] returns nil.  When
    [initSentry] returns an error, no hook is added. *)
Theorem initSentry_added_hook config :
  (forall h,
      snd (initSentry' config) = Some h ->
      fst (initSentry' config) = None
      /\ SentryDSN config <> ""
      /\ exists environment,
          Environment = (environment, None)
          /\ environment <> LocalEnv
          /\ h = {| HookClient :=
                      {| ClientDSN := SentryDSN config;
                         ClientRelease := Version;
                         ClientEnvironment := environment |};
                    HookLevels := [PanicLevel; FatalLevel; ErrorLevel];
                    Timeout := time_Second |})
  /\ (forall e,
      fst (initSentry' config) = Some e -> snd (initSentry' config) = None).
Proof.
  unfold initSentry.
  destruct (String.length (SentryDSN config) =? 0)%nat eqn:Hdsn; [easy|].
  assert (Hset : SentryDSN config <> "").
  { intros Hempty. apply length_zero_iff_empty in Hempty. congruence. }
  destruct Environment as [environment [e|]]; [easy|].
  destruct (environment =? LocalEnv)%string eqn:Hlocal; [easy|].
  apply String.eqb_neq in Hlocal.
  destruct (raven_New (SentryDSN config)) as [e|]; [easy|].
  destruct (NewWithClientSentryHook _ _) as [e|]; [easy|].
  split; [|easy].
  cbn [fst snd]. intros h [= <-].
  repeat split; try assumption. now exists environment.
Qed.

(** X26.  When the executor refuses to start.  [init] ends in [log.Fatal]
    exactly when the configuration cannot be loaded, or when it has a DSN
    and either the run environment cannot be determined or, outside the
    local environment, the raven client or the hook cannot be set up.
    Otherwise the logger is at the debug level if the configuration asks
    for it and at the info level if not. *)
Theorem init_fatal_iff :
  let init' :=
    init SentryDSN Debug Version Environment LocalEnv raven_New
      NewWithClientSentryHook Process in
  ((exists message err, init' = Fatal message err)
   <-> (snd Process <> None
        \/ (SentryDSN (fst Process) <> ""
            /\ (snd Environment <> None
                \/ (fst Environment <> LocalEnv
                    /\ (raven_New (SentryDSN (fst Process)) <> None
                        \/ NewWithClientSentryHook
                             {| ClientDSN := SentryDSN (fst Process);
                                ClientRelease := Version;
                                ClientEnvironment := fst Environment |}
                             [PanicLevel; FatalLevel; ErrorLevel]
                           <> None))))))
  /\ (forall level added,
      init' = Ready level added ->
      level = if Debug (fst Process) then DebugLevel else InfoLevel).
Proof.
  intros init'. subst init'. unfold init, initSentry.
  destruct Process as [config [e|]]; cbn [fst snd].
  { split; [|discriminate]. split; [intros _; now left|].
    intros _. now exists "Failed to load executor configuration", e. }
  destruct (String.length (SentryDSN config) =? 0)%nat eqn:Hdsn.
  { apply length_zero_iff_empty in Hdsn.
    split; [|now intros level added [= <- _]].
    split; [now intros (m & err & [=])|].
    intros [Hload|[Hset _]]; easy. }
  assert (Hset : SentryDSN config <> "").
  { intros Hempty. apply length_zero_iff_empty in Hempty. congruence. }
  destruct Environment as [environment [e|]]; cbn [fst snd].
  { split; [|discriminate]. split.
    - intros _. right. split; [assumption|]. now left.
    - intros _. now eexists _, _. }
  destruct (environment =? LocalEnv)%string eqn:Hlocal.
  { apply String.eqb_eq in Hlocal.
    split; [|now intros level added [= <- _]].
    split; [now intros (m & err & [=])|].
    intros [Hload|[_ [Henv|[Hother _]]]]; easy. }
  apply String.eqb_neq in Hlocal.
  destruct (raven_New (SentryDSN config)) as [e|] eqn:Hraven.
  { split; [|discriminate]. split.
    - intros _. right. split; [assumption|]. right. split; [assumption|].
      now left.
    - intros _. now eexists _, _. }
  destruct (NewWithClientSentryHook _ _) as [e|] eqn:Hhook.
  { split; [|discriminate]. split.
    - intros _. right. split; [assumption|]. right. split; [assumption|].
      now right.
    - intros _. now eexists _, _. }
  split; [|now intros level added [= <- _]].
  split; [now intros (m & err & [=])|].
  intros [Hload|[_ [Henv|[_ [Hr|Hh]]]]]; easy.
Qed.

End MainProperties.

(** ** The properties on the worked instance *)

Lemma DeregisterBackend_idempotent_witness :
  let sh := {| backendID := Some 17; client := vaas [None] [] |} in
  let unset := {| backendID := None; client := vaas [] [] |} in
  backendID sh = Some 17
  /\ DeleteBackend (client sh) 17 = (vaas [] [], None)
  /\ (let '(o1, sh1, evs1) := DeregisterBackend sh webTask in
      let '(o2, sh2, evs2) := DeregisterBackend sh1 webTask in
      o1 = Return None /\ o2 = Return None
      /\ backendID sh1 = None /\ sh2 = sh1
      /\ deleteCalls (evs1 ++ evs2) = [17]
      /\ clientCalls evs2 = [])
  /\ backendID unset = None
  /\ DeregisterBackend unset webTask = (Return None, unset, []).
Proof.
  intros sh unset.
  split; [reflexivity|]. split; [reflexivity|].
  split.
  - exact (proj1 (DeregisterBackend_idempotent sh webTask webTask)
             17 (vaas [] []) eq_refl eq_refl).
  - split; [reflexivity|].
    exact (proj1 (proj2 (DeregisterBackend_idempotent unset webTask webTask)
                    eq_refl)).
Defined.

Lemma DeregisterBackend_failure_keeps_state_witness :
  let sh := {| backendID := Some 17; client := vaas [Some "502"; None] [] |} in
  backendID sh = Some 17
  /\ DeleteBackend (client sh) 17 = (vaas [None] [], Some "502")
  /\ (let '(o, sh', evs) := DeregisterBackend sh webTask in
      o = Return (Some "502")
      /\ backendID sh' = backendID sh
      /\ client sh' = vaas [None] []
      /\ stores evs = []
      /\ deleteCalls (snd (DeregisterBackend sh' webTask)) = [17]).
Proof.
  intros sh.
  split; [reflexivity|]. split; [reflexivity|].
  exact (DeregisterBackend_failure_keeps_state sh webTask webTask
           17 (vaas [None] []) "502" eq_refl eq_refl).
Defined.




Lemma RegisterBackend_async_failure_keeps_identifier_witness :
  let sh answers := {| backendID := None; client := vaas [None] answers |} in
  let outcomeOf (r : outcome * Hook ScriptedClient * list (event string)) :=
    fst (fst r) in
  let hookOf (r : outcome * Hook ScriptedClient * list (event string)) :=
    snd (fst r) in
  let timeout :=
    RegisterBackend directorPath localEnv [TickerC; TimerC]
      (sh [fetched StatusPending; fetched StatusSuccess]) queuedTask in
  let failure :=
    RegisterBackend directorPath localEnv [TickerC; TickerC; TimerC]
      (sh [fetched StatusPending; fetched StatusFailure]) queuedTask in
  GetLabelValue queuedTask vaasAsyncLabelKey = "true"
  /\ outcomeOf timeout
     = Return (Some "Could not register with VaaS director: VaaS registration timed out")
  /\ backendID (hookOf timeout) = Some 17
  /\ deleteCalls (snd (DeregisterBackend (hookOf timeout) queuedTask)) = [17]
  /\ outcomeOf failure
     = Return (Some "Could not register with VaaS director: Registration in VaaS failed: %!s(<nil>)")
  /\ backendID (hookOf failure) = Some 17.
Proof.
  intros sh outcomeOf hookOf timeout failure.
  assert (Hdirector : GetLabelValue queuedTask vaasDirectorLabelKey <> "")
    by discriminate.
  split; [reflexivity|].
  pose proof (RegisterBackend_async_failure_keeps_identifier
                directorPath localEnv [TickerC; TimerC]
                (sh [fetched StatusPending; fetched StatusSuccess])
                queuedTask "dc6" "dc6" _ _ 7 httpPort [adminPort]
                Hdirector eq_refl eq_refl eq_refl eq_refl
                _ _ _ _ _ _ _ eq_refl eq_refl eq_refl)
    as (Hreturn & _ & Hkept & _ & Hdelete).
  pose proof (RegisterBackend_async_failure_keeps_identifier
                directorPath localEnv [TickerC; TickerC; TimerC]
                (sh [fetched StatusPending; fetched StatusFailure])
                queuedTask "dc6" "dc6" _ _ 7 httpPort [adminPort]
                Hdirector eq_refl eq_refl eq_refl eq_refl
                _ _ _ _ _ _ _ eq_refl eq_refl eq_refl)
    as (Hreturn' & _ & Hkept' & _).
  split; [exact (f_equal outcomeOf Hreturn)|].
  split; [exact (f_equal (fun r => backendID (hookOf r)) Hreturn)|].
  split; [exact (Hdelete 17 queuedTask eq_refl)|].
  split; [exact (f_equal outcomeOf Hreturn')|].
  exact (f_equal (fun r => backendID (hookOf r)) Hreturn').
Defined.

Lemma RegisterBackend_weight_override_witness :
  let sh := {| backendID := None; client := vaas [] [] |} in
  GetWeight weightedTask = (20, None)
  /\ Atoi (FindEnvValue weightedTask vaasInitialWeight) = Some 5
  /\ (exists b async,
         addCalls (snd (RegisterBackend directorPath localEnv [] sh weightedTask))
         = [(b, async)]
         /\ Weight b = Some 5)
  /\ GetWeight webTask = (0, Some "no weight label")
  /\ Atoi (FindEnvValue webTask vaasInitialWeight) = None
  /\ (exists b async,
         addCalls (snd (RegisterBackend directorPath localEnv [] sh webTask))
         = [(b, async)]
         /\ Weight b = None).
Proof.
  intros sh.
  assert (Hdirector : forall ti : StubTaskInfo,
             valueOf "director" (labels ti) = "web" ->
             GetLabelValue ti vaasDirectorLabelKey <> "").
  { intros ti Hweb. unfold GetLabelValue, StubTaskInfo_methods.
    unfold vaasDirectorLabelKey. rewrite Hweb. discriminate. }
  split; [reflexivity|]. split; [reflexivity|].
  split.
  - destruct (RegisterBackend_weight_override
                (taskInfoMethods := StubTaskInfo_methods)
                (clientMethods := ScriptedClient_methods)
                directorPath localEnv [] sh weightedTask
                "dc6" "dc6" (vaas [] []) (vaas [] []) 7 httpPort [adminPort]
                (Hdirector weightedTask eq_refl) eq_refl eq_refl eq_refl eq_refl)
      as (b & async & Hcalls & Hoverride & _).
    exists b, async. split; [exact Hcalls|exact (Hoverride 5 eq_refl)].
  - split; [reflexivity|]. split; [reflexivity|].
    destruct (RegisterBackend_weight_override
                (taskInfoMethods := StubTaskInfo_methods)
                (clientMethods := ScriptedClient_methods)
                directorPath localEnv [] sh webTask
                "dc6" "dc6" (vaas [] []) (vaas [] []) 7 httpPort [adminPort]
                (Hdirector webTask eq_refl) eq_refl eq_refl eq_refl eq_refl)
      as (b & async & Hcalls & _ & _ & Habsent).
    exists b, async.
    split; [exact Hcalls|exact (Habsent 0 "no weight label" eq_refl eq_refl)].
Defined.

Lemma RegisterBackend_async_iff_label_true_witness :
  let sh := {| backendID := None; client := vaas [] [fetched StatusSuccess] |} in
  GetLabelValue queuedTask vaasAsyncLabelKey = "true"
  /\ map snd
       (addCalls
          (snd (RegisterBackend directorPath localEnv [TickerC; TimerC]
                  sh queuedTask)))
     = [true]
  /\ GetLabelValue webTask vaasAsyncLabelKey = ""
  /\ map snd
       (addCalls
          (snd (RegisterBackend directorPath localEnv [TickerC; TimerC]
                  sh webTask)))
     = [false]
  /\ statusCalls
       (snd (RegisterBackend directorPath localEnv [TickerC; TimerC]
               sh webTask))
     = []
  /\ GetLabelValue capitalTask vaasAsyncLabelKey = "TRUE"
  /\ map snd
       (addCalls
          (snd (RegisterBackend directorPath localEnv [TickerC; TimerC]
                  sh capitalTask)))
     = [false].
Proof.
  intros sh.
  assert (Hcapital : GetLabelValue capitalTask vaasAsyncLabelKey <> "true")
    by discriminate.
  assert (Hdirector : forall ti : StubTaskInfo,
             valueOf "director" (labels ti) = "web" ->
             GetLabelValue ti vaasDirectorLabelKey <> "").
  { intros ti Hweb. unfold GetLabelValue, StubTaskInfo_methods.
    unfold vaasDirectorLabelKey. rewrite Hweb. discriminate. }
  assert (Hsync : GetLabelValue webTask vaasAsyncLabelKey <> "true")
    by discriminate.
  split; [reflexivity|].
  split.
  - destruct (RegisterBackend_async_iff_label_true
                (taskInfoMethods := StubTaskInfo_methods)
                (clientMethods := ScriptedClient_methods)
                directorPath localEnv [TickerC; TimerC] sh queuedTask
                "dc6" "dc6" (client sh) (client sh) 7 httpPort [adminPort]
                (Hdirector queuedTask eq_refl) eq_refl eq_refl eq_refl eq_refl)
      as (async & Hcalls & Hiff & _).
    rewrite Hcalls. cbn [map snd].
    now rewrite (proj2 Hiff eq_refl).
  - split; [reflexivity|].
    destruct (RegisterBackend_async_iff_label_true
                (taskInfoMethods := StubTaskInfo_methods)
                (clientMethods := ScriptedClient_methods)
                directorPath localEnv [TickerC; TimerC] sh webTask
                "dc6" "dc6" (client sh) (client sh) 7 httpPort [adminPort]
                (Hdirector webTask eq_refl) eq_refl eq_refl eq_refl eq_refl)
      as (async & Hcalls & _ & Helse).
    destruct (Helse Hsync) as [Hflag Hpolls].
    rewrite Hcalls. cbn [map snd]. rewrite Hflag.
    split; [reflexivity|]. split; [exact Hpolls|].
    split; [reflexivity|].
    destruct (RegisterBackend_async_iff_label_true
                (taskInfoMethods := StubTaskInfo_methods)
                (clientMethods := ScriptedClient_methods)
                directorPath localEnv [TickerC; TimerC] sh capitalTask
                "dc6" "dc6" (client sh) (client sh) 7 httpPort [adminPort]
                (Hdirector capitalTask eq_refl) eq_refl eq_refl eq_refl eq_refl)
      as (async' & Hcalls' & _ & Helse').
    rewrite Hcalls'. cbn [map snd].
    now rewrite (proj1 (Helse' Hcapital)).
Defined.

Lemma RegisterBackend_port_is_first_witness :
  let sh := {| backendID := None; client := vaas [] [] |} in
  GetPorts webTask = [httpPort; adminPort]
  /\ GetPorts singlePortTask = [httpPort]
  /\ (exists b async,
         addCalls (snd (RegisterBackend directorPath localEnv [] sh webTask))
         = [(b, async)]
         /\ Port b = 31000)
  /\ RegisterBackend directorPath localEnv [] sh singlePortTask
     = RegisterBackend directorPath localEnv [] sh webTask.
Proof.
  intros sh.
  assert (Hdirector : forall ti : StubTaskInfo,
             valueOf "director" (labels ti) = "web" ->
             GetLabelValue ti vaasDirectorLabelKey <> "").
  { intros ti Hweb. unfold GetLabelValue, StubTaskInfo_methods.
    unfold vaasDirectorLabelKey. rewrite Hweb. discriminate. }
  split; [reflexivity|]. split; [reflexivity|].
  destruct (RegisterBackend_port_is_first
              (taskInfoMethods := StubTaskInfo_methods)
              (clientMethods := ScriptedClient_methods)
              directorPath localEnv [] sh webTask
              "dc6" "dc6" (client sh) (client sh) 7 httpPort [adminPort]
              (Hdirector webTask eq_refl) eq_refl eq_refl eq_refl eq_refl)
    as [Hport Hothers].
  split; [exact Hport|].
  exact (Hothers singlePortTask []
           (fun _ => eq_refl) eq_refl (fun _ => eq_refl) eq_refl).
Defined.

(** ** Further properties on the worked instance *)

Lemma RegisterBackend_call_discipline_witness :
  let '(o, sh', evs) :=
    RegisterBackend directorPath localEnv [TickerC; TimerC]
      {| backendID := Some 3; client := vaas [] [fetched StatusSuccess] |}
      queuedTask in
  deleteCalls evs = []
  /\ (length (addCalls evs) <= 1)%nat
  /\ (length (stores evs) <= length (addCalls evs))%nat
  /\ (stores evs = [] -> statusCalls evs = [] /\ backendID sh' = Some 3)
  /\ (forall v, In v (stores evs) -> backendID sh' = v).
Proof.
  exact (RegisterBackend_call_discipline
           (taskInfoMethods := StubTaskInfo_methods)
           (clientMethods := ScriptedClient_methods)
           directorPath localEnv [TickerC; TimerC]
           {| backendID := Some 3; client := vaas [] [fetched StatusSuccess] |}
           queuedTask).
Defined.

Lemma RegisterBackend_nil_means_registered_witness :
  let sh := {| backendID := None; client := vaas [] [] |} in
  fst (fst (RegisterBackend directorPath localEnv [] sh webTask)) = Return None
  /\ (let '(o, sh', evs) := RegisterBackend directorPath localEnv [] sh webTask in
      o = Return None ->
      (GetLabelValue webTask vaasDirectorLabelKey = "" /\ sh' = sh /\ evs = [])
      \/ (GetLabelValue webTask vaasDirectorLabelKey <> ""
          /\ exists id b async,
              backendID sh' = Some id
              /\ addCalls evs = [(b, async)]
              /\ stores evs = [Some id])).
Proof.
  intros sh. split; [reflexivity|].
  exact (RegisterBackend_nil_means_registered
           (taskInfoMethods := StubTaskInfo_methods)
           (clientMethods := ScriptedClient_methods)
           directorPath localEnv [] sh webTask).
Defined.

Lemma RegisterBackend_skips_iff_no_director_witness :
  let sh := {| backendID := Some 3; client := withoutDC (None, Some "down") |} in
  GetLabelValue plainTask vaasDirectorLabelKey = ""
  /\ RegisterBackend directorPath localEnv [] sh plainTask = (Return None, sh, [])
  /\ GetLabelValue webTask vaasDirectorLabelKey <> ""
  /\ RegisterBackend directorPath localEnv [] sh webTask <> (Return None, sh, []).
Proof.
  intros sh.
  split; [reflexivity|].
  split.
  - exact (proj2 (RegisterBackend_skips_iff_no_director
                    (taskInfoMethods := StubTaskInfo_methods)
                    (clientMethods := ScriptedClient_methods)
                    directorPath localEnv [] sh plainTask) eq_refl).
  - assert (Hset : GetLabelValue webTask vaasDirectorLabelKey <> "")
      by discriminate.
    split; [exact Hset|].
    intros Hskipped.
    exact (Hset (proj1 (RegisterBackend_skips_iff_no_director
                          (taskInfoMethods := StubTaskInfo_methods)
                          (clientMethods := ScriptedClient_methods)
                          directorPath localEnv [] sh webTask) Hskipped)).
Defined.

Lemma RegisterBackend_lookup_errors_witness :
  let unknown := {| Datacenter := ("", Some "no datacenter"); IP := "10.1.2.3" |} in
  let lost := {| backendID := Some 3; client := withoutDC (None, Some "down") |} in
  let undirected := {| backendID := Some 3; client := withoutDirector |} in
  GetLabelValue webTask vaasDirectorLabelKey <> ""
  /\ RegisterBackend directorPath unknown [] lost webTask
     = (Return (Some "no datacenter"), lost, [])
  /\ RegisterBackend directorPath localEnv [] lost webTask
     = (Return (Some "down"), lost, [CallGetDC "dc6"])
  /\ RegisterBackend directorPath localEnv [] undirected webTask
     = (Return (Some "director not found"), undirected,
        [CallGetDC "dc6"; CallFindDirectorID "web"]).
Proof.
  intros unknown lost undirected.
  assert (Hset : GetLabelValue webTask vaasDirectorLabelKey <> "")
    by discriminate.
  split; [exact Hset|].
  split; [|split].
  - exact (proj1 (RegisterBackend_lookup_errors
                    (clientMethods := ScriptedClient_methods)
                    directorPath unknown [] lost webTask Hset)
             "" "no datacenter" eq_refl).
  - exact (proj1 (proj2 (RegisterBackend_lookup_errors
                           (clientMethods := ScriptedClient_methods)
                           directorPath localEnv [] lost webTask Hset))
             "dc6" (client lost) None "down" eq_refl eq_refl).
  - exact (proj2 (proj2 (RegisterBackend_lookup_errors
                           (clientMethods := ScriptedClient_methods)
                           directorPath localEnv [] undirected webTask Hset))
             "dc6" withoutDirector (Some "dc6") withoutDirector 0
             "director not found" eq_refl eq_refl eq_refl).
Defined.

Lemma RegisterBackend_no_ports_witness :
  let sh := {| backendID := Some 3; client := withoutDC (None, None) |} in
  GetLabelValue portlessTask vaasDirectorLabelKey <> ""
  /\ GetPorts portlessTask = []
  /\ RegisterBackend directorPath localEnv [] sh portlessTask
     = (Return (Some "Service has no ports available"), sh,
        [CallGetDC "dc6"; CallFindDirectorID "web"]).
Proof.
  intros sh.
  assert (Hset : GetLabelValue portlessTask vaasDirectorLabelKey <> "")
    by discriminate.
  split; [exact Hset|]. split; [reflexivity|].
  exact (RegisterBackend_no_ports
           (clientMethods := ScriptedClient_methods)
           directorPath localEnv [] sh portlessTask
           "dc6" (client sh) None (client sh) 7
           Hset eq_refl eq_refl eq_refl eq_refl).
Defined.

Lemma RegisterBackend_nil_pointers_witness :
  let lookups := [CallGetDC "dc6"; CallFindDirectorID "web"] in
  let nowhere := {| backendID := Some 3; client := withoutDC (None, None) |} in
  let unnamed := {| backendID := Some 3; client := anonymous [] |} in
  let queued :=
    {| backendID := Some 3; client := anonymous [fetched StatusSuccess] |} in
  let b := newBackend directorPath localEnv webTask "dc6" 7 httpPort in
  let b' := newBackend directorPath localEnv queuedTask "dc6" 7 httpPort in
  RegisterBackend directorPath localEnv [] nowhere webTask
  = (Panic, nowhere, lookups)
  /\ RegisterBackend directorPath localEnv [] unnamed webTask
     = (Panic, {| backendID := None; client := anonymous [] |},
        (lookups ++ [CallAddBackend b false; StoreBackendID None])%list)
  /\ RegisterBackend directorPath localEnv [TickerC] queued queuedTask
     = (Panic, {| backendID := None; client := anonymous [] |},
        (lookups
         ++ [CallAddBackend b' true; StoreBackendID None;
             CallTaskStatus pendingTask])%list).
Proof.
  intros lookups nowhere unnamed queued b b'.
  assert (Hset : forall ti : StubTaskInfo,
             valueOf "director" (labels ti) = "web" ->
             GetLabelValue ti vaasDirectorLabelKey <> "").
  { intros ti Hweb. unfold GetLabelValue, StubTaskInfo_methods.
    unfold vaasDirectorLabelKey. rewrite Hweb. discriminate. }
  assert (Hsync : GetLabelValue webTask vaasAsyncLabelKey <> "true")
    by discriminate.
  split; [|split].
  - exact (proj1 (RegisterBackend_nil_pointers
                    (taskInfoMethods := StubTaskInfo_methods)
                    (clientMethods := ScriptedClient_methods)
                    directorPath localEnv [] nowhere webTask
                    "dc6" (client nowhere) (client nowhere) 7
                    httpPort [adminPort]
                    (Hset webTask eq_refl) eq_refl eq_refl eq_refl)
             eq_refl).
  - exact (proj1 (proj2 (RegisterBackend_nil_pointers
                           (taskInfoMethods := StubTaskInfo_methods)
                           (clientMethods := ScriptedClient_methods)
                           directorPath localEnv [] unnamed webTask
                           "dc6" (client unnamed) (client unnamed) 7
                           httpPort [adminPort]
                           (Hset webTask eq_refl) eq_refl eq_refl eq_refl))
             "dc6" (client unnamed) _ _ eq_refl Hsync eq_refl eq_refl).
  - exact (proj2 (proj2 (RegisterBackend_nil_pointers
                           (taskInfoMethods := StubTaskInfo_methods)
                           (clientMethods := ScriptedClient_methods)
                           directorPath localEnv [TickerC] queued queuedTask
                           "dc6" (client queued) (client queued) 7
                           httpPort [adminPort]
                           (Hset queuedTask eq_refl) eq_refl eq_refl eq_refl))
             "dc6" (client queued) _ _ _ _ _
             eq_refl eq_refl eq_refl eq_refl eq_refl).
Defined.

Lemma RegisterBackend_canary_tags_witness :
  let sh := {| backendID := None; client := vaas [] [] |} in
  let marked := newBackend directorPath localEnv canaryTask "dc6" 7 httpPort in
  let plain := newBackend directorPath localEnv webTask "dc6" 7 httpPort in
  In (marked, false)
    (addCalls (snd (RegisterBackend directorPath localEnv [] sh canaryTask)))
  /\ GetLabelValue canaryTask canaryLabelKey = "false"
  /\ Tags marked = ["canary"]
  /\ In (plain, false)
       (addCalls (snd (RegisterBackend directorPath localEnv [] sh webTask)))
  /\ GetLabelValue webTask canaryLabelKey = ""
  /\ Tags plain = [].
Proof.
  intros sh marked plain.
  assert (Hmarked :
    In (marked, false)
      (addCalls (snd (RegisterBackend directorPath localEnv [] sh canaryTask))))
    by (left; reflexivity).
  assert (Hplain :
    In (plain, false)
      (addCalls (snd (RegisterBackend directorPath localEnv [] sh webTask))))
    by (left; reflexivity).
  assert (Hcanary : GetLabelValue canaryTask canaryLabelKey <> "")
    by discriminate.
  split; [exact Hmarked|]. split; [reflexivity|].
  split.
  - exact (proj2 (RegisterBackend_canary_tags
                    (taskInfoMethods := StubTaskInfo_methods)
                    (clientMethods := ScriptedClient_methods)
                    directorPath localEnv [] sh canaryTask marked false
                    Hmarked) Hcanary).
  - split; [exact Hplain|]. split; [reflexivity|].
    exact (proj1 (RegisterBackend_canary_tags
                    (taskInfoMethods := StubTaskInfo_methods)
                    (clientMethods := ScriptedClient_methods)
                    directorPath localEnv [] sh webTask plain false
                    Hplain) eq_refl).
Defined.

Lemma RegisterBackend_submitted_backend_witness :
  let sh := {| backendID := Some 3; client := vaas [] [] |} in
  let b := newBackend directorPath localEnv webTask "dc6" 7 httpPort in
  In (b, false)
    (addCalls (snd (RegisterBackend directorPath localEnv [] sh webTask)))
  /\ ID b = None
  /\ InheritTimeProfile b = true
  /\ Address b = "10.1.2.3"
  /\ Director b = "/api/v0.1/director/7/".
Proof.
  intros sh b.
  assert (Hsubmitted :
    In (b, false)
      (addCalls (snd (RegisterBackend directorPath localEnv [] sh webTask))))
    by (left; reflexivity).
  split; [exact Hsubmitted|].
  destruct (RegisterBackend_submitted_backend
              (taskInfoMethods := StubTaskInfo_methods)
              (clientMethods := ScriptedClient_methods)
              directorPath localEnv [] sh webTask b false Hsubmitted)
    as (Hid & Hinherit & Haddress & _).
  split; [exact Hid|]. split; [exact Hinherit|]. split; [exact Haddress|].
  reflexivity.
Defined.

Lemma newBackend_director_injective_witness :
  Director (newBackend directorPath localEnv webTask "dc6" 7 httpPort)
  = Director (newBackend directorPath localEnv canaryTask "dc1" 7 adminPort)
  /\ 7 = 7.
Proof.
  split; [reflexivity|].
  exact (newBackend_director_injective
           (taskInfoMethods := StubTaskInfo_methods)
           directorPath localEnv localEnv webTask canaryTask
           "dc6" "dc1" 7 7 httpPort adminPort eq_refl).
Defined.

Lemma RegisterBackend_weight_from_decimal_witness :
  let sh := {| backendID := None; client := vaas [] [] |} in
  let b := newBackend directorPath localEnv canaryTask "dc6" 7 httpPort in
  minInt <= -3 <= maxInt
  /\ FindEnvValue canaryTask vaasInitialWeight = fmt_d (-3)
  /\ GetWeight canaryTask = (20, None)
  /\ In (b, false)
       (addCalls (snd (RegisterBackend directorPath localEnv [] sh canaryTask)))
  /\ Weight b = Some (-3).
Proof.
  intros sh b.
  assert (Hint : minInt <= -3 <= maxInt) by (split; discriminate).
  assert (Hsubmitted :
    In (b, false)
      (addCalls (snd (RegisterBackend directorPath localEnv [] sh canaryTask))))
    by (left; reflexivity).
  split; [exact Hint|]. split; [reflexivity|]. split; [reflexivity|].
  split; [exact Hsubmitted|].
  exact (RegisterBackend_weight_from_decimal
           (taskInfoMethods := StubTaskInfo_methods)
           (clientMethods := ScriptedClient_methods)
           directorPath localEnv [] sh canaryTask b false (-3)
           Hint eq_refl Hsubmitted).
Defined.

Lemma watchTaskStatus_sound_witness :
  let sh :=
    {| backendID := Some 17;
       client := vaas [] [fetched StatusPending; fetched StatusSuccess] |} in
  fst (fst (fst (watchTaskStatus [TickerC; TickerC; TimerC] sh pendingTask)))
  = Return None
  /\ (let '(o, sh', task', evs) :=
        watchTaskStatus [TickerC; TickerC; TimerC] sh pendingTask in
      (o = Return None \/ o = Return (Some failed)) ->
      exists c earlier last,
        statusCalls evs = (earlier ++ [last])%list
        /\ TaskStatus c last = (client sh', task', None)
        /\ Status task'
           = match o with
             | Return None => StatusSuccess
             | _ => StatusFailure
             end).
Proof.
  intros sh. split; [reflexivity|].
  exact (watchTaskStatus_sound (clientMethods := ScriptedClient_methods)
           [TickerC; TickerC; TimerC] sh pendingTask).
Defined.

Lemma watchTaskStatus_decided_witness :
  let sh :=
    {| backendID := Some 17; client := vaas [] [fetched StatusPending] |} in
  fst (fst (fst (watchTaskStatus [TickerC; TimerC] sh pendingTask))) <> Blocked
  /\ watchTaskStatus ([TickerC; TimerC] ++ [TickerC; TickerC]) sh pendingTask
     = watchTaskStatus [TickerC; TimerC] sh pendingTask.
Proof.
  intros sh.
  assert (Hreturned :
    fst (fst (fst (watchTaskStatus [TickerC; TimerC] sh pendingTask)))
    <> Blocked) by discriminate.
  split; [exact Hreturned|].
  exact (watchTaskStatus_decided (clientMethods := ScriptedClient_methods)
           [TickerC; TimerC] [TickerC; TickerC] sh pendingTask Hreturned).
Defined.

Lemma RegisterBackend_async_submit_refused_witness :
  let sh := {| backendID := Some 3; client := busy |} in
  let b := newBackend directorPath localEnv queuedTask "dc6" 7 httpPort in
  GetLabelValue queuedTask vaasAsyncLabelKey = "true"
  /\ AddBackend busy b true = (busy, b, ("", Some "503 Service Unavailable"))
  /\ RegisterBackend directorPath localEnv [TickerC; TimerC] sh queuedTask
     = (Return (Some "Could not register with VaaS director: 503 Service Unavailable"),
        sh,
        [CallGetDC "dc6"; CallFindDirectorID "web"; CallAddBackend b true]).
Proof.
  intros sh b.
  assert (Hset : GetLabelValue queuedTask vaasDirectorLabelKey <> "")
    by discriminate.
  split; [reflexivity|]. split; [reflexivity|].
  exact (RegisterBackend_async_submit_refused
           (taskInfoMethods := StubTaskInfo_methods)
           (clientMethods := ScriptedClient_methods)
           directorPath localEnv [TickerC; TimerC] sh queuedTask
           "dc6" "dc6" busy busy 7 httpPort [adminPort]
           Hset eq_refl eq_refl eq_refl eq_refl eq_refl
           busy b "" "503 Service Unavailable" eq_refl).
Defined.

Lemma RegisterBackend_async_success_witness :
  let sh :=
    {| backendID := None;
       client := vaas [] [fetched StatusPending; fetched StatusSuccess] |} in
  let b := newBackend directorPath localEnv queuedTask "dc6" 7 httpPort in
  let succeeded :=
    {| ResourceURI := "/api/v0.1/task/42/"; Status := StatusSuccess;
       Info := "" |} in
  GetLabelValue queuedTask vaasAsyncLabelKey = "true"
  /\ RegisterBackend directorPath localEnv [TickerC; TickerC; TimerC] sh
       queuedTask
     = (Return None, {| backendID := Some 17; client := vaas [] [] |},
        [CallGetDC "dc6"; CallFindDirectorID "web"; CallAddBackend b true;
         StoreBackendID (Some 17); CallTaskStatus pendingTask;
         CallTaskStatus pendingTask])
  /\ Status succeeded = StatusSuccess.
Proof.
  intros sh b succeeded.
  assert (Hset : GetLabelValue queuedTask vaasDirectorLabelKey <> "")
    by discriminate.
  split; [reflexivity|].
  destruct (RegisterBackend_async_success
              (taskInfoMethods := StubTaskInfo_methods)
              (clientMethods := ScriptedClient_methods)
              directorPath localEnv [TickerC; TickerC; TimerC] sh queuedTask
              "dc6" "dc6" (client sh) (client sh) 7 httpPort [adminPort]
              Hset eq_refl eq_refl eq_refl eq_refl eq_refl
              (client sh)
              {| ID := Some 17; Address := Address b; Director := Director b;
                 Weight := Weight b; DC := DC b; Port := Port b;
                 InheritTimeProfile := InheritTimeProfile b; Tags := Tags b |}
              "/api/v0.1/task/42/" 17
              {| backendID := Some 17; client := vaas [] [] |}
              succeeded
              [CallTaskStatus pendingTask; CallTaskStatus pendingTask]
              eq_refl eq_refl eq_refl)
    as (Hreturned & _ & Hstatus & _).
  split; [exact Hreturned|exact Hstatus].
Defined.

Lemma RegisterBackend_async_first_fetch_witness :
  let sh :=
    {| backendID := None; client := vaas [] [fetched StatusSuccess] |} in
  GetLabelValue queuedTask vaasAsyncLabelKey = "true"
  /\ hd_error
       (statusCalls
          (snd (RegisterBackend directorPath localEnv [TickerC; TimerC] sh
                  queuedTask)))
     = Some pendingTask
  /\ statusCalls
       (snd (RegisterBackend directorPath localEnv [TimerC; TickerC] sh
               queuedTask))
     = [].
Proof.
  intros sh.
  assert (Hset : GetLabelValue queuedTask vaasDirectorLabelKey <> "")
    by discriminate.
  split; [reflexivity|]. split.
  - exact (proj1 (RegisterBackend_async_first_fetch
                    (taskInfoMethods := StubTaskInfo_methods)
                    (clientMethods := ScriptedClient_methods)
                    directorPath localEnv [TickerC; TimerC] sh queuedTask
                    "dc6" "dc6" (client sh) (client sh) 7 httpPort [adminPort]
                    Hset eq_refl eq_refl eq_refl eq_refl eq_refl
                    (client sh) _ "/api/v0.1/task/42/" eq_refl)
             [TimerC] eq_refl).
  - exact (proj2 (RegisterBackend_async_first_fetch
                    (taskInfoMethods := StubTaskInfo_methods)
                    (clientMethods := ScriptedClient_methods)
                    directorPath localEnv [TimerC; TickerC] sh queuedTask
                    "dc6" "dc6" (client sh) (client sh) 7 httpPort [adminPort]
                    Hset eq_refl eq_refl eq_refl eq_refl eq_refl
                    (client sh) _ "/api/v0.1/task/42/" eq_refl)
             [TickerC] eq_refl).
Defined.

Lemma handleEvents_retries_delete_witness :
  let sh :=
    {| backendID := Some 17;
       client := vaas [Some "502"; Some "503"; None] [] |} in
  let evs :=
    [(terminating webTask, []); (terminating webTask, []);
     (terminating webTask, [])] in
  refusals 2 (client sh) 17 = Some (vaas [None] [], ["502"; "503"])
  /\ DeleteBackend (vaas [None] []) 17 = (vaas [] [], None)
  /\ handleEvents directorPath localEnv sh evs
     = ([Return (Some "502"); Return (Some "503"); Return None],
        {| backendID := None; client := vaas [] [] |},
        [CallDeleteBackend 17; CallDeleteBackend 17; CallDeleteBackend 17;
         StoreBackendID None]).
Proof.
  intros sh evs.
  split; [reflexivity|]. split; [reflexivity|].
  exact (handleEvents_retries_delete
           (taskInfoMethods := StubTaskInfo_methods)
           (clientMethods := ScriptedClient_methods)
           directorPath localEnv 2 evs sh 17 (vaas [None] []) ["502"; "503"]
           (vaas [] []) eq_refl eq_refl eq_refl eq_refl eq_refl).
Defined.

Lemma handleEvents_ignores_other_events_witness :
  let sh := {| backendID := None; client := {| nextID := 40 |} |} in
  let evs :=
    [(killed webTask, []); (healthy webTask, []); (killed plainTask, []);
     (terminating webTask, [])] in
  let known := [(healthy webTask, []); (terminating webTask, [])] in
  snd (fst (handleEvents directorPath localEnv sh known))
  = snd (fst (handleEvents directorPath localEnv sh evs))
  /\ snd (handleEvents directorPath localEnv sh known)
     = snd (handleEvents directorPath localEnv sh evs)
  /\ deleteCalls (snd (handleEvents directorPath localEnv sh evs)) = [40]
  /\ handleEvents directorPath localEnv sh
       [(killed webTask, []); (killed plainTask, [TimerC])]
     = ([Return None; Return None], sh, []).
Proof.
  intros sh evs known.
  destruct (handleEvents_ignores_other_events
              (taskInfoMethods := StubTaskInfo_methods)
              (clientMethods := Numbering_methods)
              directorPath localEnv evs) as [Hknown _].
  destruct (handleEvents_ignores_other_events
              (taskInfoMethods := StubTaskInfo_methods)
              (clientMethods := Numbering_methods)
              directorPath localEnv
              [(killed webTask, []); (killed plainTask, [TimerC])])
    as [_ Hother].
  split; [exact (proj1 (Hknown sh))|].
  split; [exact (proj2 (Hknown sh))|].
  split; [reflexivity|].
  exact (Hother sh eq_refl).
Defined.

Lemma handleEvents_register_then_deregister_witness :
  let sh := {| backendID := None; client := {| nextID := 40 |} |} in
  let sh1 := {| backendID := Some 40; client := {| nextID := 41 |} |} in
  let calls1 := snd (RegisterBackend directorPath localEnv [] sh webTask) in
  GetLabelValue webTask vaasDirectorLabelKey <> ""
  /\ RegisterBackend directorPath localEnv [] sh webTask
     = (Return None, sh1, calls1)
  /\ exists id,
      backendID sh1 = Some id
      /\ stores calls1 = [Some id]
      /\ forall c,
          DeleteBackend (client sh1) id = (c, None) ->
          handleEvents directorPath localEnv sh
            [(healthy webTask, []); (terminating webTask, [])]
          = ([Return None; Return None],
             {| backendID := None; client := c |},
             (calls1 ++ [CallDeleteBackend id; StoreBackendID None])%list).
Proof.
  intros sh sh1 calls1.
  assert (Hset : GetLabelValue webTask vaasDirectorLabelKey <> "")
    by discriminate.
  split; [exact Hset|]. split; [reflexivity|].
  exact (handleEvents_register_then_deregister
           (taskInfoMethods := StubTaskInfo_methods)
           (clientMethods := Numbering_methods)
           directorPath localEnv sh (healthy webTask) (terminating webTask)
           [] [] sh1 calls1 eq_refl eq_refl Hset eq_refl).
Defined.

Lemma handleEvents_deletes_held_witness :
  let sh := {| backendID := Some 3; client := {| nextID := 40 |} |} in
  let evs :=
    [(terminating webTask, []); (terminating webTask, []);
     (healthy webTask, []); (healthy canaryTask, []);
     (terminating canaryTask, [])] in
  deleteCalls (snd (handleEvents directorPath localEnv sh evs)) = [3; 41]
  /\ (let '(os, sh', calls) := handleEvents directorPath localEnv sh evs in
      deletesHeld (backendID sh) calls = true
      /\ (forall id,
          In id (deleteCalls calls) ->
          backendID sh = Some id \/ In (Some id) (stores calls))).
Proof.
  intros sh evs. split; [reflexivity|].
  exact (handleEvents_deletes_held
           (taskInfoMethods := StubTaskInfo_methods)
           (clientMethods := Numbering_methods)
           directorPath localEnv sh evs).
Defined.

Lemma handleEvents_second_registration_replaces_witness :
  let sh := {| backendID := Some 3; client := {| nextID := 40 |} |} in
  let sh1 := {| backendID := Some 40; client := {| nextID := 41 |} |} in
  let sh2 := {| backendID := Some 41; client := {| nextID := 42 |} |} in
  RegisterBackend directorPath localEnv [] sh webTask
  = (Return None, sh1,
     snd (RegisterBackend directorPath localEnv [] sh webTask))
  /\ RegisterBackend directorPath localEnv [] sh1 canaryTask
     = (Return None, sh2,
        snd (RegisterBackend directorPath localEnv [] sh1 canaryTask))
  /\ DeleteBackend (client sh2) 41 = ({| nextID := 42 |}, None)
  /\ (let '(os, sh', calls) :=
        handleEvents directorPath localEnv sh
          [(healthy webTask, []); (healthy canaryTask, []);
           (terminating canaryTask, [])] in
      os = [Return None; Return None; Return None]
      /\ sh' = {| backendID := None; client := {| nextID := 42 |} |}
      /\ deleteCalls calls = [41]
      /\ forall held,
          backendID sh = Some held \/ backendID sh1 = Some held ->
          held <> 41 ->
          ~ In held (deleteCalls calls)).
Proof.
  intros sh sh1 sh2.
  split; [reflexivity|]. split; [reflexivity|]. split; [reflexivity|].
  exact (handleEvents_second_registration_replaces
           (taskInfoMethods := StubTaskInfo_methods)
           (clientMethods := Numbering_methods)
           directorPath localEnv sh
           (healthy webTask) (healthy canaryTask) (terminating canaryTask)
           [] [] [] None sh1 _ None sh2 _ 41 {| nextID := 42 |}
           eq_refl eq_refl eq_refl eq_refl eq_refl eq_refl eq_refl).
Defined.

Lemma NewHook_deregisters_nothing_witness :
  let NewClient (host user key : string) := vaas [None] [] in
  let sh := fst (NewHook NewClient "vaas.example" "executor" "secret") in
  let evs := [(terminating webTask, []); (terminating webTask, [])] in
  forallb (fun x => isTerminate (hook.Type' (fst x))) evs = true
  /\ handleEvents directorPath localEnv sh evs
     = ([Return None; Return None], sh, []).
Proof.
  intros NewClient sh evs. split; [reflexivity|].
  exact (proj2 (proj2 (NewHook_deregisters_nothing
                         (taskInfoMethods := StubTaskInfo_methods)
                         (clientMethods := ScriptedClient_methods)
                         directorPath localEnv NewClient
                         "vaas.example" "executor" "secret"))
           evs eq_refl).
Defined.

Lemma initSentry_added_hook_witness :
  let sentry :=
    initSentry (Config := string * bool) fst "1.2.0" ("prod", None) "local"
      (fun _ => None) (fun _ _ => None) in
  let installed :=
    {| HookClient :=
         {| ClientDSN := "https://key@sentry.example/7";
            ClientRelease := "1.2.0"; ClientEnvironment := "prod" |};
       HookLevels := [PanicLevel; FatalLevel; ErrorLevel];
       Timeout := 1000000000 |} in
  snd (sentry ("https://key@sentry.example/7", false)) = Some installed
  /\ fst (sentry ("https://key@sentry.example/7", false)) = None
  /\ "https://key@sentry.example/7" <> "".
Proof.
  intros sentry installed. split; [reflexivity|].
  destruct (proj1 (initSentry_added_hook (Config := string * bool)
                     fst "1.2.0" ("prod", None) "local"
                     (fun _ => None) (fun _ _ => None)
                     ("https://key@sentry.example/7", false))
              installed eq_refl) as (Hnil & Hset & _).
  split; [exact Hnil|exact Hset].
Defined.

Lemma init_fatal_iff_witness :
  let start environment :=
    init (Config := string * bool) fst snd "1.2.0" environment "local"
      (fun _ => None) (fun _ _ => Some "no transport")
      (("https://key@sentry.example/7", true), None) in
  start ("local", None) = Ready DebugLevel None
  /\ (exists message err, start ("prod", None) = Fatal message err)
  /\ (exists message err, start ("", Some "no environment") = Fatal message err).
Proof.
  intros start.
  split; [reflexivity|]. split.
  - apply (proj1 (init_fatal_iff (Config := string * bool) fst snd "1.2.0"
                    ("prod", None) "local" (fun _ => None)
                    (fun _ _ => Some "no transport")
                    (("https://key@sentry.example/7", true), None))).
    right. split; [discriminate|]. right. split; [discriminate|].
    right. discriminate.
  - apply (proj1 (init_fatal_iff (Config := string * bool) fst snd "1.2.0"
                    ("", Some "no environment") "local" (fun _ => None)
                    (fun _ _ => Some "no transport")
                    (("https://key@sentry.example/7", true), None))).
    right. split; [discriminate|]. left. discriminate.
Defined.
